(** * mcu-interface: [mcu_interface/dfu.py] and [mcu_interface/bossa.py]

    The two Python modules wrap the command-line tools [dfu-util] and
    [bossac].  They are embedded as Rocq functions, in three parts:

    - [Py]: the pieces of the Python runtime that the modules use ([str]
      methods, [int], formatting, exceptions as a [result] type, and a small
      state monad [IO] over a trace of events and a store of list objects);
    - [dfu]: [DfuInfo] (with [parse_serial]) and [Dfu] ([__init__],
      [from_udev], [samba_bootloader]);
    - [bossa]: [BossaInfo] (with [set]) and [Bossa] ([cmd]).

    What [subprocess.run] prints, what udev enumerates, [textwrap.wrap] and
    the exit status of the tools are parameters of the embedded methods.
    The properties follow the definitions. *)

From Stdlib Require Import ZArith Ascii String List Lia DecimalString.
From Stdlib Require Import DecimalFacts DecimalPos DecimalN DecimalZ.
From stdpp Require Import base option list gmap strings.
Import ListNotations.

Local Open Scope string_scope.
Local Open Scope Z_scope.

(* ===================================================================== *)
(** ** Python runtime pieces the sources rely on *)
(* ===================================================================== *)

Module Py.

(** The exceptions that the embedded code can raise. *)
Inductive exn : Set :=
| IndexError
| ValueError
| TypeError
| NameError
| FileNotFoundError
| LookupError
| NotImplementedError
| StructError
| KeyError
| CalledProcessError.

Inductive result (A : Type) : Type :=
| Ok (a : A)
| Raise (e : exn).
Arguments Ok {A} a.
Arguments Raise {A} e.

Definition bind {A B} (r : result A) (k : A -> result B) : result B :=
  match r with
  | Ok a => k a
  | Raise e => Raise e
  end.

#[export] Instance result_bind : MBind result := fun A B k r => bind r k.
#[export] Instance result_ret : MRet result := @Ok.

Definition is_ok {A} (r : result A) : bool :=
  match r with Ok _ => true | Raise _ => false end.

(** [xs[i]]: out of range raises [IndexError]. *)
Definition getitem {A} (xs : list A) (i : nat) : result A :=
  match xs !! i with
  | Some x => Ok x
  | None => Raise IndexError
  end.

(** Truthiness of an optional string: [None] and [''] are falsy. *)
Definition truthy (o : option string) : bool :=
  match o with
  | None => false
  | Some EmptyString => false
  | Some _ => true
  end.

(** *** [str] methods *)

Fixpoint startswith (p s : string) : bool :=
  match p, s with
  | EmptyString, _ => true
  | String _ _, EmptyString => false
  | String a p', String b s' => Ascii.eqb a b && startswith p' s'
  end.

(** [p in s] *)
Fixpoint contains (p s : string) : bool :=
  startswith p s ||
  match s with
  | EmptyString => false
  | String _ s' => contains p s'
  end.

Definition cons_head (c : ascii) (fields : list string) : list string :=
  match fields with
  | [] => [String c EmptyString]
  | h :: t => String c h :: t
  end.

Definition may_split (maxsplit : option nat) : bool :=
  match maxsplit with
  | Some O => false
  | _ => true
  end.

Definition dec_split (maxsplit : option nat) : option nat :=
  match maxsplit with
  | Some n => Some (Nat.pred n)
  | None => None
  end.

(** [s.split(sep, maxsplit)] for a non-empty [sep]: a left-to-right scan for
    non-overlapping occurrences.  [skip] counts the characters of a
    separator that has just been matched and still has to be consumed; the
    head of the returned list is the field being built. *)
Fixpoint split_go (sep : string) (maxsplit : option nat) (skip : nat)
         (s : string) : list string :=
  match s with
  | EmptyString => [EmptyString]
  | String c s' =>
      match skip with
      | S k => split_go sep maxsplit k s'
      | O =>
          if may_split maxsplit && startswith sep s
          then EmptyString ::
               split_go sep (dec_split maxsplit) (Nat.pred (String.length sep)) s'
          else cons_head c (split_go sep maxsplit 0 s')
      end
  end.

Definition split (sep s : string) : list string := split_go sep None 0 s.
Definition splitn (sep : string) (n : nat) (s : string) : list string :=
  split_go sep (Some n) 0 s.

Fixpoint lstrip_chars (f : ascii -> bool) (s : string) : string :=
  match s with
  | EmptyString => EmptyString
  | String c s' => if f c then lstrip_chars f s' else s
  end.

Fixpoint rstrip_chars (f : ascii -> bool) (s : string) : string :=
  match s with
  | EmptyString => EmptyString
  | String c s' =>
      match rstrip_chars f s' with
      | EmptyString => if f c then EmptyString else String c EmptyString
      | r => String c r
      end
  end.

Definition strip_chars (f : ascii -> bool) (s : string) : string :=
  rstrip_chars f (lstrip_chars f s).

Definition dquote : ascii := ascii_of_nat 34.
Definition nl : ascii := ascii_of_nat 10.
Definition newline : string := String nl EmptyString.

(** [s.strip(q)] where [q] is the one-character string holding a double
    quote. *)
Definition strip_quotes (s : string) : string :=
  strip_chars (Ascii.eqb dquote) s.

(** ASCII white space, as removed by [int()] before it reads the digits. *)
Definition is_space (c : ascii) : bool :=
  let n := nat_of_ascii c in
  ((9 <=? n) && (n <=? 13) || (28 <=? n) && (n <=? 32))%nat.

Fixpoint join (sep : string) (xs : list string) : string :=
  match xs with
  | [] => EmptyString
  | [x] => x
  | x :: rest => x +:+ sep +:+ join sep rest
  end.

(** *** [int(s, base)] *)

Definition digit_val (base : Z) (c : ascii) : option Z :=
  let n := Z.of_nat (nat_of_ascii c) in
  let v :=
    if (48 <=? n) && (n <=? 57) then Some (n - 48)
    else if (97 <=? n) && (n <=? 122) then Some (n - 87)
    else if (65 <=? n) && (n <=? 90) then Some (n - 55)
    else None in
  match v with
  | Some d => if d <? base then Some d else None
  | None => None
  end.

Definition underscore : ascii := "_"%char.

(** The digit part: digits of the base, single underscores allowed between
    digits only.  [sep_before] says that the previous character was not a
    digit. *)
Fixpoint read_digits (base : Z) (sep_before : bool) (acc : Z) (s : string)
  : option Z :=
  match s with
  | EmptyString => if sep_before then None else Some acc
  | String c s' =>
      if Ascii.eqb c underscore then
        if sep_before then None else read_digits base true acc s'
      else
        match digit_val base c with
        | Some d => read_digits base false (acc * base + d) s'
        | None => None
        end
  end.

Definition drop_base_prefix (base : Z) (s : string) : option string :=
  match s with
  | String "0" (String x rest) =>
      if (base =? 16) && (Ascii.eqb x "x" || Ascii.eqb x "X")
      then Some rest else None
  | _ => None
  end.

Definition read_unsigned (base : Z) (s : string) : option Z :=
  match drop_base_prefix base s with
  | Some EmptyString => None
  | Some rest => read_digits base false 0 rest
  | None => read_digits base true 0 s
  end.

Definition int_opt (base : Z) (s : string) : option Z :=
  match strip_chars is_space s with
  | EmptyString => None
  | String c r =>
      if Ascii.eqb c "-" then Z.opp <$> read_unsigned base r
      else if Ascii.eqb c "+" then read_unsigned base r
      else read_unsigned base (String c r)
  end.

(** [int(s, base)]: [ValueError] on anything that is not a literal. *)
Definition int (base : Z) (s : string) : result Z :=
  match int_opt base s with
  | Some z => Ok z
  | None => Raise ValueError
  end.

(** *** formatting *)

(** [str(n)] / ['{}'.format(n)] for an integer. *)
Definition str (n : Z) : string := NilZero.string_of_int (Z.to_int n).

Definition hex_digit (d : Z) : ascii :=
  if d <? 10 then ascii_of_nat (Z.to_nat (48 + d))
  else ascii_of_nat (Z.to_nat (87 + d)).

Fixpoint hex_go (fuel : nat) (n : Z) (acc : string) : string :=
  match fuel with
  | O => acc
  | S k =>
      let acc' := String (hex_digit (n mod 16)) acc in
      if n / 16 =? 0 then acc' else hex_go k (n / 16) acc'
  end.

Fixpoint zfill_go (fuel width : nat) (s : string) : string :=
  match fuel with
  | O => s
  | S k =>
      if (String.length s <? width)%nat then zfill_go k width (String "0" s)
      else s
  end.

Definition zfill (width : nat) (s : string) : string := zfill_go width width s.

(** ['{:04x}'.format(n)] *)
Definition format_04x (n : Z) : string :=
  if n <? 0
  then String "-" (zfill 3 (hex_go (S (Z.to_nat (Z.log2 (- n)))) (- n) EmptyString))
  else zfill 4 (hex_go (S (Z.to_nat (Z.log2 n))) n EmptyString).

(** *** the outside world

    What the code does to its environment is recorded as a list of events.
    Python lists that are built up by [append] live in a store of objects,
    addressed by reference, so that two names bound to one list see each
    other's updates. *)

Inductive event : Type :=
| ev_run (argv : list string)     (* subprocess.run(argv, check=True) *)
| ev_write (data : list Z)        (* tf.write(bytes) *)
| ev_log (msg : string).          (* logger.warning *)

Record world : Type := World {
  objs : gmap nat (list string);
  next_ref : nat;
  events : list event
}.

Definition world0 : world := World ∅ 0 [].

Definition IO (A : Type) : Type := world -> result A * world.

Definition io_ret {A} (a : A) : IO A := fun w => (Ok a, w).
Definition io_bind {A B} (m : IO A) (k : A -> IO B) : IO B :=
  fun w => match m w with
           | (Ok a, w') => k a w'
           | (Raise e, w') => (Raise e, w')
           end.
Definition io_raise {A} (e : exn) : IO A := fun w => (Raise e, w).
Definition io_lift {A} (r : result A) : IO A := fun w => (r, w).
Definition io_emit (ev : event) : IO unit :=
  fun w => (Ok tt, World (objs w) (next_ref w) (events w ++ [ev])%list).

#[export] Instance IO_bind : MBind IO := fun A B k m => io_bind m k.
#[export] Instance IO_ret : MRet IO := @io_ret.

(** [[x1, ..., xn]]: a fresh list object. *)
Definition new_list (xs : list string) : IO nat :=
  fun w => (Ok (next_ref w),
            World (<[next_ref w := xs]> (objs w)) (S (next_ref w)) (events w)).

(** [r.append(x)] *)
Definition list_append (r : nat) (x : string) : IO unit :=
  fun w => match objs w !! r with
           | Some xs => (Ok tt, World (<[r := (xs ++ [x])%list]> (objs w))
                                      (next_ref w) (events w))
           | None => (Raise NameError, w)
           end.

Definition list_read (r : nat) : IO (list string) :=
  fun w => match objs w !! r with
           | Some xs => (Ok xs, w)
           | None => (Raise NameError, w)
           end.

(** [subprocess.run(argv, check=True)]; [exit_ok] tells whether the tool
    exits with status 0 on that argument vector. *)
Definition subprocess_run (exit_ok : list string -> bool) (argv : list string)
  : IO unit :=
  _ ← io_emit (ev_run argv);
  if exit_ok argv then mret tt else io_raise CalledProcessError.

Definition when (b : bool) (m : IO unit) : IO unit :=
  if b then m else io_ret tt.

Fixpoint mapM {A B} (f : A -> result B) (xs : list A) : result (list B) :=
  match xs with
  | [] => Ok []
  | x :: rest => y ← f x; ys ← mapM f rest; mret (y :: ys)
  end.

(** [bytes(struct.unpack('4B', struct.pack('I', word)))]: the four bytes of
    an unsigned 32-bit word, least significant first; [struct.error] when
    the word does not fit. *)
Definition pack_I (word : Z) : result (list Z) :=
  if (0 <=? word) && (word <? 2 ^ 32)
  then Ok [word mod 256; (word / 256) mod 256;
           (word / 65536) mod 256; (word / 16777216) mod 256]
  else Raise StructError.

Definition opt_eqb (a b : option string) : bool :=
  match a, b with
  | Some x, Some y => String.eqb x y
  | None, None => true
  | _, _ => false
  end.

End Py.

Import Py.

(* ===================================================================== *)
(** ** dfu.py *)
(* ===================================================================== *)

Module dfu.

Definition dfu_bin : string := "dfu-util".
Definition dfu_suffix_bin : string := "dfu-suffix".

(** Modelled from the spec: the decorator [timeit] of
    [mcu_interface.common], a module that is not among the sources.  The
    spec describes the decorated operations by what their bodies do (the
    gate raises, a failed tool run is fatal), so the decorator is taken to
    run the method and to hand back what it returns or raises. *)
Definition timeit {A : Type} (f : A) : A := f.

(** The dictionary built by [DfuInfo.parse_serial]; its six keys are fixed,
    so it is a record. *)
Module rdict.
Record t : Type := mk {
  serial : string;
  chip : string;
  mcu_revision : option Z;
  ble_serial : option string;
  ble_chip : option string;
  ble_revision : option Z
}.
End rdict.

Module DfuInfo.

(** Every attribute starts as [None] (dfu.py, lines 53-62). *)
Record t : Type := mk {
  vid : option Z;
  pid : option Z;
  ver : option Z;
  devnum : option Z;
  cfg : option Z;
  intf : option Z;
  path : option string;
  alt : option Z;
  name : option string;
  serial : option rdict.t
}.

Definition empty : t := mk None None None None None None None None None None.

(** [DfuInfo.parse_serial] (dfu.py, lines 110-151). *)
Definition parse_serial (raw_serial : string) : result rdict.t :=
  let raw_serial_split := split " " raw_serial in
  tok2 ← getitem raw_serial_split 2;
  let chip_rev := split ":" tok2 in
  '(chip, mcu_revision) ←
    (if (1 <? length chip_rev)%nat then
       c ← getitem chip_rev 0;
       r ← getitem chip_rev 1;
       v ← int 16 r;
       mret (c, Some v)
     else mret (tok2, None));
  '(ble_serial, ble_chip, ble_revision) ←
    (if (5 <? length raw_serial_split)%nat then
       bs ← getitem raw_serial_split 4;
       tok6 ← getitem raw_serial_split 6;
       let ble_chip_rev := split ":" tok6 in
       bc ← getitem ble_chip_rev 0;
       r ← getitem ble_chip_rev 1;
       v ← int 16 r;
       mret (Some bs, Some bc, Some v)
     else mret (None, None, None));
  s0 ← getitem raw_serial_split 0;
  mret (rdict.mk s0 chip mcu_revision ble_serial ble_chip ble_revision).

(** [field.split('=')[1]] *)
Definition value_of (field : string) : result string :=
  getitem (split "=" field) 1.

(** One turn of the loop over [basic_fields] (dfu.py, lines 92-108). *)
Definition set_field (self : t) (field : string) : result t :=
  let '(mk vid pid ver devnum cfg intf path alt name serial) := self in
  if contains "ver" field then
    v ← value_of field; n ← int 16 v;
    mret (mk vid pid (Some n) devnum cfg intf path alt name serial)
  else if contains "devnum" field then
    v ← value_of field; n ← int 10 v;
    mret (mk vid pid ver (Some n) cfg intf path alt name serial)
  else if contains "cfg" field then
    v ← value_of field; n ← int 10 v;
    mret (mk vid pid ver devnum (Some n) intf path alt name serial)
  else if contains "intf" field then
    v ← value_of field; n ← int 10 v;
    mret (mk vid pid ver devnum cfg (Some n) path alt name serial)
  else if contains "path" field then
    v ← value_of field;
    mret (mk vid pid ver devnum cfg intf (Some (strip_quotes v)) alt name serial)
  else if contains "alt" field then
    v ← value_of field; n ← int 10 v;
    mret (mk vid pid ver devnum cfg intf path (Some n) name serial)
  else if contains "name" field then
    v ← value_of field;
    mret (mk vid pid ver devnum cfg intf path alt (Some (strip_quotes v)) serial)
  else if contains "serial" field then
    v ← value_of field; r ← parse_serial (strip_quotes v);
    mret (mk vid pid ver devnum cfg intf path alt name (Some r))
  else mret self.

Fixpoint set_fields (self : t) (fields : list string) : result t :=
  match fields with
  | [] => Ok self
  | field :: rest => self' ← set_field self field; set_fields self' rest
  end.

(** [DfuInfo.set] (dfu.py, lines 79-108). *)
Definition set (self : t) (dfu_output : string) : result t :=
  let basic_fields := split ", " dfu_output in
  f0 ← getitem basic_fields 0;
  a ← getitem (split "[" f0) 1;
  b ← getitem (split "]" a) 0;
  ids ← mapM (int 16) (split ":" b);
  match ids with
  | [v; p] =>
      let '(mk _ _ ver devnum cfg intf path alt name serial) := self in
      set_fields (mk (Some v) (Some p) ver devnum cfg intf path alt name serial)
                 basic_fields
  | _ => Raise ValueError
  end.

(** [DfuInfo(dfu_output)] *)
Definition __init__ (dfu_output : string) : result t := set empty dfu_output.

End DfuInfo.

Module Dfu.

Record t : Type := mk { interfaces : list DfuInfo.t }.

(** The attributes of a udev device's parent, by name;
    [attributes.asstring(k)] raises [KeyError] for a missing one. *)
Definition asstring (attributes : gmap string string) (k : string)
  : result string :=
  match attributes !! k with
  | Some v => Ok v
  | None => Raise KeyError
  end.

Section collaborators.

(** [subprocess.run(cmd, capture_output=True, check=True).stdout.decode()]:
    what [dfu-util --list] prints for the given argument vector, or the
    exception of a failed run. *)
Variable dfu_util_list : list string -> result string.

(** The devices that the pyudev enumeration of [from_udev] yields (parent
    attributes of each), given whether the [vid] and [pid] filters are set;
    an exception of the enumeration itself is handed on. *)
Variable udev_devices : bool -> bool -> result (list (gmap string string)).

(** [textwrap.wrap(text, width)] *)
Variable textwrap_wrap : string -> nat -> list string.

(** The name of the temporary file, and whether a tool run with a given
    argument vector exits with status 0. *)
Variable tf_name : string.
Variable exit_ok : list string -> bool.

(** Gathering the interfaces (dfu.py, lines 177-182). *)
Fixpoint gather (lines : list string) : result (list DfuInfo.t) :=
  match lines with
  | [] => Ok []
  | line :: rest =>
      if contains "Found DFU:" line then
        i ← DfuInfo.__init__ line; found ← gather rest; mret (i :: found)
      else gather rest
  end.

(** [intf.serial[key]]: subscripting [None] is a [TypeError]. *)
Definition serial_item {A} (intf : DfuInfo.t) (key : rdict.t -> A) : result A :=
  match DfuInfo.serial intf with
  | Some d => Ok (key d)
  | None => Raise TypeError
  end.

(** The loop over [found_interfaces] (dfu.py, lines 191-212), with the two
    loop-carried variables as arguments. *)
Fixpoint filter_loop (serial ble_serial : option string)
         (path_found : option string) (filtered_interfaces : list DfuInfo.t)
         (found_interfaces : list DfuInfo.t) : result (list DfuInfo.t) :=
  match found_interfaces with
  | [] => Ok filtered_interfaces
  | intf :: rest =>
      skip_serial ←
        (if truthy serial then
           s ← serial_item intf rdict.serial;
           mret (negb (opt_eqb serial (Some s)))
         else mret false);
      if skip_serial : bool then
        filter_loop serial ble_serial path_found filtered_interfaces rest
      else
      skip_ble ←
        (if truthy ble_serial then
           b ← serial_item intf rdict.ble_serial;
           mret (negb (opt_eqb ble_serial b))
         else mret false);
      if skip_ble : bool then
        filter_loop serial ble_serial path_found filtered_interfaces rest
      else if negb (truthy path_found) then
        filter_loop serial ble_serial (DfuInfo.path intf)
                    (filtered_interfaces ++ [intf])%list rest
      else if opt_eqb (DfuInfo.path intf) path_found then
        filter_loop serial ble_serial path_found
                    (filtered_interfaces ++ [intf])%list rest
      else Raise LookupError
  end.

(** [Dfu.__init__] (dfu.py, lines 165-215). *)
Definition __init__ (path vid pid serial ble_serial : option string)
  : result t :=
  let dfu_cmd := [dfu_bin; "--list"] in
  let dfu_cmd :=
    match path with
    | Some p => if truthy path then (dfu_cmd ++ ["--path"; p])%list else dfu_cmd
    | None => dfu_cmd
    end in
  let dfu_cmd :=
    match vid, pid with
    | Some v, Some p =>
        if truthy vid && truthy pid
        then (dfu_cmd ++ ["--device"; v +:+ ":" +:+ p])%list else dfu_cmd
    | _, _ => dfu_cmd
    end in
  stdout ← dfu_util_list dfu_cmd;
  found_interfaces ← gather (split newline stdout);
  if (length found_interfaces =? 0)%nat then Raise FileNotFoundError
  else
    filtered_interfaces ← filter_loop serial ble_serial None [] found_interfaces;
    mret (mk filtered_interfaces).

(** The loop over [devices] of [from_udev] (dfu.py, lines 247-262); a found
    device is the triple (attributes, (vid, pid), parsed serial). *)
Fixpoint udev_loop (serial ble_serial : option string)
         (devices : list (gmap string string))
  : result (list (gmap string string * (string * string) * rdict.t)) :=
  match devices with
  | [] => Ok []
  | device :: rest =>
      raw ← asstring device "serial";
      parsed_serial ← DfuInfo.parse_serial raw;
      dev_vid ← asstring device "idVendor";
      dev_pid ← asstring device "idProduct";
      if truthy serial && negb (opt_eqb serial (Some (rdict.serial parsed_serial)))
      then udev_loop serial ble_serial rest
      else if truthy ble_serial
              && negb (opt_eqb ble_serial (rdict.ble_serial parsed_serial))
      then udev_loop serial ble_serial rest
      else
        found ← udev_loop serial ble_serial rest;
        mret ((device, (dev_vid, dev_pid), parsed_serial) :: found)
  end.

(** [Dfu.from_udev] (dfu.py, lines 224-280).  The last statement evaluates
    the name [path] as the first argument of [cls(...)]; no such name is
    bound in the method, in the module or among the builtins. *)
Definition from_udev (vid pid serial ble_serial : option string) : result t :=
  devices ← udev_devices (truthy vid) (truthy pid);
  found_devices ← udev_loop serial ble_serial devices;
  if (length found_devices =? 0)%nat then Raise FileNotFoundError
  else if (1 <? length found_devices)%nat then Raise LookupError
  else
    dev ← getitem found_devices 0;
    Raise NameError.

Definition fmt (o : option Z) : string :=
  match o with
  | Some z => str z
  | None => "None"
  end.

Definition fmt_04x (o : option Z) : result string :=
  match o with
  | Some z => Ok (format_04x z)
  | None => Raise TypeError
  end.

(** [Dfu.samba_bootloader] (dfu.py, lines 359-432). *)
Definition samba_bootloader (self : t) : IO unit :=
  timeit (
  intf0 ← io_lift (getitem (interfaces self) 0);
  let vid := DfuInfo.vid intf0 in
  let pid := DfuInfo.pid intf0 in
  let path := DfuInfo.path intf0 in
  chip ← io_lift (serial_item intf0 rdict.chip);
  let revision := DfuInfo.ver intf0 in
  serial ← io_lift (serial_item intf0 rdict.serial);
  let name := DfuInfo.name intf0 in
  if negb (bool_decide (vid = Some 12431)) then io_raise NotImplementedError
  else if negb (contains "sam4s" chip) then io_raise NotImplementedError
  else
    too_old ← io_lift (match revision with
                       | Some r => Ok (r <? 1233)
                       | None => Raise TypeError
                       end);
    if too_old : bool then io_raise NotImplementedError
    else
      serial_num ← io_lift (getitem (split " - " serial) 0);
      let serial_num_words := textwrap_wrap serial_num 8 in
      serial_num_words_int ← io_lift (mapM (int 16) serial_num_words);
      _ ← (fix write_words (ws : list Z) : IO unit :=
             match ws with
             | [] => mret tt
             | word :: rest =>
                 data ← io_lift (pack_I word);
                 _ ← io_emit (ev_write data);
                 write_words rest
             end) serial_num_words_int;
      hvid ← io_lift (fmt_04x vid);
      hpid ← io_lift (fmt_04x pid);
      _ ← subprocess_run exit_ok [dfu_suffix_bin; "--vid"; hvid; "--pid"; hpid;
                          "--add"; tf_name];
      p ← io_lift (match path with Some p => Ok p | None => Raise TypeError end);
      subprocess_run exit_ok [dfu_bin; "--alt"; "0"; "--device";
                      fmt vid +:+ ":" +:+ fmt pid; "--path"; p;
                      "--download"; tf_name]).

(** [Dfu.dfu_interfaces] (dfu.py, lines 217-222). *)
Definition dfu_interfaces (self : t) : list DfuInfo.t := interfaces self.

(** An element of an argument vector that must be a string: [None] makes
    [subprocess.run] raise [TypeError]. *)
Definition str_arg (o : option string) : result string :=
  match o with
  | Some p => Ok p
  | None => Raise TypeError
  end.

(** [Dfu.download] (dfu.py, lines 282-304). *)
Definition download (self : t) (file : string) (alt : Z) : IO unit :=
  timeit (
  intf0 ← io_lift (getitem (interfaces self) 0);
  let vid := DfuInfo.vid intf0 in
  let pid := DfuInfo.pid intf0 in
  let path := DfuInfo.path intf0 in
  p ← io_lift (str_arg path);
  subprocess_run exit_ok [dfu_bin; "--alt"; str alt; "--device";
                          fmt vid +:+ ":" +:+ fmt pid; "--path"; p;
                          "--download"; file]).

(** [Dfu.upload] (dfu.py, lines 306-331); [file_size] is [None] or an
    integer, and [if file_size] holds for a non-zero integer. *)
Definition upload (self : t) (file : string) (file_size : option Z) (alt : Z)
  : IO unit :=
  timeit (
  intf0 ← io_lift (getitem (interfaces self) 0);
  let vid := DfuInfo.vid intf0 in
  let pid := DfuInfo.pid intf0 in
  let path := DfuInfo.path intf0 in
  let size_args :=
    match file_size with
    | Some n => if n =? 0 then [] else ["--upload-size"; str n]
    | None => []
    end in
  p ← io_lift (str_arg path);
  subprocess_run exit_ok ([dfu_bin; "--alt"; str alt; "--device";
                           fmt vid +:+ ":" +:+ fmt pid; "--path"; p;
                           "--upload"; file] ++ size_args)%list).

(** [Dfu.reset] (dfu.py, lines 333-357). *)
Definition reset (self : t) (alt : Z) : IO unit :=
  timeit (
  intf0 ← io_lift (getitem (interfaces self) 0);
  let vid := DfuInfo.vid intf0 in
  let pid := DfuInfo.pid intf0 in
  let path := DfuInfo.path intf0 in
  p ← io_lift (str_arg path);
  subprocess_run exit_ok [dfu_bin; "--alt"; str alt; "--device";
                          fmt vid +:+ ":" +:+ fmt pid; "--path"; p;
                          "--detach"]).

End collaborators.
End Dfu.

End dfu.

(* ===================================================================== *)
(** ** bossa.py *)
(* ===================================================================== *)

Module bossa.

(** The same decorator, imported from [mcu_interface.common]. *)
Definition timeit {A : Type} (f : A) : A := dfu.timeit f.

(** The values that the attributes of a [BossaInfo] object take. *)
Inductive value : Type :=
| VNone
| VStr (s : string)
| VInt (z : Z)
| VBool (b : bool).

Module BossaInfo.

(** A [BossaInfo] object is its attribute dictionary. *)
Abbreviation t := (gmap string value).

(** The state after the assignments of [__init__] (bossa.py, lines 45-57). *)
Definition fresh : t :=
  <["device" := VNone]> (<["version" := VNone]> (<["version_date" := VNone]> (
  <["address" := VNone]> (<["pages" := VNone]> (<["page_size" := VNone]> (
  <["total_size" := VNone]> (<["planes" := VNone]> (<["lock_region" := VNone]> (
  <["locked" := VNone]> (<["security" := VNone]> (<["boot_flash" := VNone]> (
  <["unique_id" := VNone]> ∅)))))))))))).

(** [line.split(': ')[1]] *)
Definition value_of (line : string) : result string :=
  getitem (split ": " line) 1.

(** One turn of the loop of [BossaInfo.set] (bossa.py, lines 84-115): the
    updated object and the warnings logged. *)
Definition set_line (self : t) (line : string) : result (t * list string) :=
  if contains "Device" line then
    v ← value_of line; mret (<["device" := VStr v]> self, [])
  else if contains "Version" line then
    v ← value_of line;
    match splitn " " 1 v with
    | [a; b] =>
        mret (<["version_date" := VStr b]> (<["version" := VStr a]> self), [])
    | _ => Raise ValueError
    end
  else if contains "Address" line then
    v ← value_of line; n ← int 16 v; mret (<["address" := VInt n]> self, [])
  else if contains "Pages" line then
    v ← value_of line; n ← int 10 v; mret (<["pages" := VInt n]> self, [])
  else if contains "Page Size" line then
    v ← value_of line; w ← getitem (splitn " " 1 v) 0; n ← int 10 w;
    mret (<["page_size" := VInt n]> self, [])
  else if contains "Total Size" line then
    value ← value_of line;
    if contains "KB" value then
      w ← getitem (split "KB" value) 0; n ← int 10 w;
      mret (<["total_size" := VInt (n * 1024)]> self, [])
    else if contains "MB" value then
      w ← getitem (split "MB" value) 0; n ← int 10 w;
      mret (<["total_size" := VInt (n * 1024 * 1024)]> self, [])
    else mret (self, [])
  else if contains "Planes" line then
    v ← value_of line; n ← int 10 v; mret (<["planes" := VInt n]> self, [])
  else if contains "Lock Regions" line then
    v ← value_of line; n ← int 10 v; mret (<["lock_region" := VInt n]> self, [])
  else if contains "Locked" line then
    v ← value_of line; mret (<["locked" := VStr v]> self, [])
  else if contains "Security" line then
    v ← value_of line;
    mret (<["security" := VBool (String.eqb v "true")]> self, [])
  else if contains "Boot Flash" line then
    v ← value_of line;
    mret (<["boot_flash" := VBool (String.eqb v "true")]> self, [])
  else if contains "Unique Id" line then
    v ← value_of line; mret (<["unique_id" := VStr v]> self, [])
  else if String.eqb line "" then mret (self, [])
  else mret (self, [line]).

Fixpoint set_lines (self : t) (lines : list string) : result (t * list string) :=
  match lines with
  | [] => Ok (self, [])
  | line :: rest =>
      '(self1, w1) ← set_line self line;
      '(self2, w2) ← set_lines self1 rest;
      mret (self2, (w1 ++ w2)%list)
  end.

(** [BossaInfo.set] (bossa.py, lines 77-115). *)
Definition set (self : t) (bossac_output : string) : result (t * list string) :=
  set_lines self (split newline bossac_output).

(** [BossaInfo(bossac_output)] *)
Definition __init__ (bossac_output : string) : result (t * list string) :=
  set fresh bossac_output.

End BossaInfo.

Module Bossa.

Record t : Type := mk {
  port : string;
  bossa_info : option BossaInfo.t;
  bossa_cmd : string
}.

Definition __init__ (port bossa_cmd : string) : t := mk port None bossa_cmd.

Section collaborators.

Variable exit_ok : list string -> bool.

(** [','.join(str(x) for x in regions)] *)
Definition regions_arg (regions : list Z) : string := join "," (str <$> regions).

(** [Bossa.cmd] (bossa.py, lines 190-233).  [bossa_run_cmd] and
    [bossa_run_cmd_unlock] are references into the store of list objects;
    the assignment on line 209 binds the second name to the object of the
    first. *)
Definition cmd (self : t) (file : option string) (erase : option bool)
           (write boot_flash : bool) (unlock_regions lock_regions : list Z)
           (verify reset : bool) : IO unit :=
  timeit (
  bossa_run_cmd ← new_list [bossa_cmd self; "--port"; port self];
  _ ← (if (0 <? length unlock_regions)%nat then
         let bossa_run_cmd_unlock := bossa_run_cmd in
         _ ← list_append bossa_run_cmd_unlock
               ("--unlock=" +:+ regions_arg unlock_regions);
         argv ← list_read bossa_run_cmd_unlock;
         subprocess_run exit_ok argv
       else mret tt);
  _ ← match file with
      | Some f => when (truthy file) (list_append bossa_run_cmd f)
      | None => mret tt
      end;
  _ ← when (bool_decide (erase = Some true) || truthy file && write)
           (list_append bossa_run_cmd "--erase");
  _ ← when write (list_append bossa_run_cmd "--write");
  _ ← (if boot_flash then list_append bossa_run_cmd "--boot=1"
       else list_append bossa_run_cmd "--boot=0");
  _ ← when (0 <? length lock_regions)%nat
           (list_append bossa_run_cmd ("--lock=" +:+ regions_arg lock_regions));
  _ ← when (verify && truthy file) (list_append bossa_run_cmd "--verify");
  _ ← when reset (list_append bossa_run_cmd "--reset");
  argv ← list_read bossa_run_cmd;
  subprocess_run exit_ok argv).

(** [subprocess.run(cmd, capture_output=True, check=True).stdout.decode()]
    for [bossac --info]. *)
Variable bossac_info : list string -> result string.

(** [Bossa.query] (bossa.py, lines 179-188): the object with its
    [bossa_info] set, the record that is returned, and the warnings that
    parsing logged. *)
Definition query (self : t) : result (t * BossaInfo.t * list string) :=
  let cmd := [bossa_cmd self; "--port"; port self; "--info"] in
  stdout ← bossac_info cmd;
  '(info, warnings) ← BossaInfo.__init__ stdout;
  mret (mk (port self) (Some info) (bossa_cmd self), info, warnings).

(** A udev device as [from_udev] looks at it: its [sys_name] and, for each
    child, the child's driver and the device nodes of the child's own
    children.  The nodes are taken to be strings, as they are for the tty
    devices below a [cdc_acm] interface; a device without a node, whose
    [device_node] is [None], is not modelled. *)
Record udev_child : Type := mk_child {
  driver : option string;
  device_nodes : list string
}.

Record udev_device : Type := mk_device {
  sys_name : string;
  children : list udev_child
}.

(** The devices that the enumeration with the two attribute matches (and
    the match on the sys name, when [path] is set) yields. *)
Variable udev_matches :
  string -> string -> option string -> result (list udev_device).

(** The two inner loops of [from_udev] (bossa.py, lines 155-160) for one
    device. *)
Definition device_entries (device : udev_device) : list (string * string) :=
  child ← children device;
  if bool_decide (driver child = Some "cdc_acm")
  then (fun node => (node, sys_name device)) <$> device_nodes child
  else [].

(** [sorted(device_list, key=getkey)]: a stable sort on the first
    component, strings compared character by character. *)
Fixpoint insert_by_key (x : string * string) (l : list (string * string))
  : list (string * string) :=
  match l with
  | [] => [x]
  | y :: l' =>
      if String.leb (fst x) (fst y) then x :: y :: l'
      else y :: insert_by_key x l'
  end.

Definition sorted_by_key (l : list (string * string)) : list (string * string) :=
  foldr insert_by_key [] l.

(** [Bossa.from_udev] (bossa.py, lines 129-177). *)
Definition from_udev (bossa_cmd : string) (path : option string) : result t :=
  let pids := [(0x03eb, 0x6124)] in
  device_list ←
    (fix over_pids (pids : list (Z * Z)) : result (list (string * string)) :=
       match pids with
       | [] => Ok []
       | pid :: rest =>
           let idvendor := format_04x (fst pid) in
           let idproduct := format_04x (snd pid) in
           matches ← udev_matches idvendor idproduct
                                  (if truthy path then path else None);
           found ← over_pids rest;
           mret ((matches ≫= device_entries) ++ found)%list
       end) pids;
  if (length device_list =? 0)%nat then Raise FileNotFoundError
  else
    let device_list := sorted_by_key device_list in
    first ← getitem device_list 0;
    mret (__init__ (fst first) bossa_cmd).

End collaborators.
End Bossa.

End bossa.

(* ===================================================================== *)
(** ** examples/full_reflash.py *)
(* ===================================================================== *)

Module full_reflash.

(** [int(line.split(' ')[-1])] *)
Definition last_int (line : string) : result Z :=
  match last (split " " line) with
  | Some tok => int 10 tok
  | None => Raise IndexError
  end.

(** [retrieve_firmware_revision] (full_reflash.py, lines 23-36), on the
    lines that iterating over the opened file yields; [None] is what the
    function returns when the loop ends without a [return]. *)
Fixpoint retrieve_firmware_revision (search : list string) : result (option Z) :=
  match search with
  | [] => Ok None
  | line :: rest =>
      let line := rstrip_chars is_space line in
      if contains "CLI_RevisionNumber" line then
        n ← last_int line; mret (Some n)
      else if contains "BCD_VERSION" line then
        n ← last_int line; mret (Some n)
      else if contains "GIT_COMMIT_NUMBER" line then
        n ← last_int line; mret (Some n)
      else retrieve_firmware_revision rest
  end.

End full_reflash.

Import dfu bossa full_reflash.

(* ===================================================================== *)
(** ** Vocabulary of the statements, and sample data *)
(* ===================================================================== *)

(** *** Strings *)

(** Every character of [s] passes the test [f]. *)
Fixpoint all_chars (f : ascii -> bool) (s : string) : bool :=
  match s with
  | EmptyString => true
  | String c s' => f c && all_chars f s'
  end.

Definition differs (a : ascii) : ascii -> bool := fun c => negb (Ascii.eqb a c).

(** [d] put in front of the first field of a split. *)
Fixpoint prepend_head (d : string) (fields : list string) : list string :=
  match d with
  | EmptyString => fields
  | String c d' => cons_head c (prepend_head d' fields)
  end.

(** The characters of a decimal numeral. *)
Definition is_num_char (c : ascii) : bool :=
  Ascii.eqb c "-" || (48 <=? nat_of_ascii c)%nat && (nat_of_ascii c <=? 57)%nat.

Definition quoted (s : string) : string :=
  String dquote (s +:+ String dquote "").

(** *** [BossaInfo.set] *)

(** The labels of the [elif] chain, in its order. *)
Definition labels : list string :=
  [ "Device"; "Version"; "Address"; "Pages"; "Page Size"; "Total Size";
    "Planes"; "Lock Regions"; "Locked"; "Security"; "Boot Flash"; "Unique Id" ].

(** No label occurs in the line. *)
Definition unrecognized (line : string) : bool :=
  forallb (fun label => negb (contains label line)) labels.

(** The label under which the parser reads a line: the first of [labels]
    that occurs in it. *)
Definition classify (line : string) : option string :=
  List.find (fun label => contains label line) labels.

(** The label whose branch assigns a given attribute. *)
Definition owner (attr : string) : option string :=
  snd <$> List.find (fun kv => String.eqb (fst kv) attr)
    [ ("device", "Device"); ("version", "Version"); ("version_date", "Version");
      ("address", "Address"); ("pages", "Pages"); ("page_size", "Page Size");
      ("total_size", "Total Size"); ("planes", "Planes");
      ("lock_region", "Lock Regions"); ("locked", "Locked");
      ("security", "Security"); ("boot_flash", "Boot Flash");
      ("unique_id", "Unique Id") ].

(** Two outcomes of parsing agree: both fail, or both give the same
    record. *)
Definition same_record (a b : result (BossaInfo.t * list string)) : Prop :=
  match a, b with
  | Ok (r1, _), Ok (r2, _) => r1 = r2
  | Raise _, Raise _ => True
  | _, _ => False
  end.

(** The lines that are read under a label are read under different
    labels. *)
Definition labels_distinct (lines : list string) : Prop :=
  NoDup (omap classify lines).

(** Each of the twelve labels is the first of the chain to occur in
    exactly one line of the block; lines in which no label occurs do not
    count. *)
Definition one_line_per_label (lines : list string) : Prop :=
  omap classify lines ≡ₚ labels.

(** The labels that the [elif] chain tests before [label]. *)
Fixpoint labels_before (label : string) (chain : list string) : list string :=
  match chain with
  | [] => []
  | l :: chain' =>
      if String.eqb l label then [] else l :: labels_before label chain'
  end.

(** Following the claim's words: the recognized label of a line, the one
    that the line starts with, followed by a colon and a space. *)
Definition line_label (line : string) : option string :=
  List.find (fun label => startswith (label +:+ ": ") line) labels.

(** Following the claim's words: a valid info block consisting of one line
    per recognized label; empty lines, as the newline at the end of the
    tool's output leaves one, are allowed besides. *)
Definition valid_block (lines : list string) : Prop :=
  omap line_label lines ≡ₚ labels /\
  forallb (fun line =>
             String.eqb line "" || bool_decide (is_Some (line_label line)))
          lines = true.

(** No label that the chain tests before the line's own occurs anywhere in
    the line. *)
Definition own_label_first (line : string) : bool :=
  match line_label line with
  | Some label =>
      forallb (fun l => negb (contains l line)) (labels_before label labels)
  | None => true
  end.

(** An attribute of the record that parsing gave. *)
Definition attribute (k : string) (a : result (BossaInfo.t * list string))
  : option value :=
  match a with
  | Ok (r, _) => r !! k
  | Raise _ => None
  end.

(** The characters that a value may not contain for its line to be read as
    a [Total Size] line with that value. *)
Definition plain_value_char (c : ascii) : bool :=
  differs "D" c && differs "V" c && differs "A" c && differs "P" c
  && differs ":" c && differs nl c.

(** An info block as [bossac --info] prints it, one line per label. *)
Definition sample_info_lines : list string :=
  [ "Device: ATSAM4S4";
    "Version: v1.13 Nov 23 2015 16:01:19";
    "Address: 0x400000";
    "Pages: 2048";
    "Page Size: 512 bytes";
    "Total Size: 1024KB";
    "Planes: 1";
    "Lock Regions: 128";
    "Locked: none";
    "Security: false";
    "Boot Flash: true";
    "Unique Id: 5335310050464D4B3530343232333033" ].

(** The same block as a text that ends with a newline. *)
Definition sample_info : string :=
  join newline (sample_info_lines ++ [""])%list.

(** The sample block with a unique id that holds the text of the first
    label. *)
Definition device_id_lines : list string :=
  [ "Device: ATSAM4S4";
    "Version: v1.13 Nov 23 2015 16:01:19";
    "Address: 0x400000";
    "Pages: 2048";
    "Page Size: 512 bytes";
    "Total Size: 1024KB";
    "Planes: 1";
    "Lock Regions: 128";
    "Locked: none";
    "Security: false";
    "Boot Flash: true";
    "Unique Id: Device0001" ].

(** *** [Bossa.cmd] *)

(** The options that lines 215-230 of bossa.py append. *)
Definition main_options (file : option string) (erase : option bool)
           (write boot_flash : bool) (lock_regions : list Z)
           (verify reset : bool) : list string :=
  ((match file with Some f => if truthy file then [f] else [] | None => [] end)
   ++ (if bool_decide (erase = Some true) || truthy file && write
       then ["--erase"] else [])
   ++ (if write then ["--write"] else [])
   ++ [if boot_flash then "--boot=1" else "--boot=0"]
   ++ (if (0 <? length lock_regions)%nat
       then ["--lock=" +:+ Bossa.regions_arg lock_regions] else [])
   ++ (if verify && truthy file then ["--verify"] else [])
   ++ (if reset then ["--reset"] else []))%list.

(** *** [Dfu] *)

(** The two serial tests of the loop of [Dfu.__init__]: whether an
    interface comes through the [serial] and [ble_serial] filters. *)
Definition survives (serial ble_serial : option string) (intf : DfuInfo.t)
  : bool :=
  match DfuInfo.serial intf with
  | Some d =>
      (negb (truthy serial) || opt_eqb serial (Some (rdict.serial d)))
      && (negb (truthy ble_serial) || opt_eqb ble_serial (rdict.ble_serial d))
  | None => negb (truthy serial) && negb (truthy ble_serial)
  end.

(** The interface carries the dictionary of its parsed serial. *)
Definition has_serial (intf : DfuInfo.t) : Prop := is_Some (DfuInfo.serial intf).

(** The serial of a keyboard with a radio. *)
Definition serial_with_radio : string :=
  "5335310050464D4B3530343232333033 - sam4s4b:04E3 | 697E97E3A186C5DF - nRF52810:0015".

(** The parent attributes of a keyboard in DFU mode, as udev has them. *)
Definition udev_keyboard : gmap string string :=
  <["serial" := "5335310050464D4B3530343232333033 - sam4s4b:04E3"]>
    (<["idVendor" := "308f"]> (<["idProduct" := "0021"]> ∅)).

(** A keyboard in DFU mode whose bootloader reports revision 0x0100. *)
Definition old_keyboard : DfuInfo.t :=
  DfuInfo.mk (Some 0x308f) (Some 0x0021) (Some 0x0100) (Some 12) (Some 1)
             (Some 0) (Some "1-2.3") (Some 0) (Some "Flash")
             (Some (rdict.mk "5335310050464D4B3530343232333033" "sam4s4b"
                             None None None None)).

(** A line of [dfu-util --list] for one interface. *)
Definition found_dfu (path alt name serial : string) : string :=
  "Found DFU: [308f:0021] ver=04e3, devnum=12, cfg=1, intf=0, path="
  +:+ quoted path +:+ ", alt=" +:+ alt +:+ ", name=" +:+ quoted name
  +:+ ", serial=" +:+ quoted serial.

(** The output of [dfu-util --list] with one keyboard attached. *)
Definition one_keyboard : string :=
  join newline
    [ "dfu-util 0.9"; "";
      found_dfu "1-2.3" "0" "Flash"
                "5335310050464D4B3530343232333033 - sam4s4b:04E3";
      "" ].

(** The output with two keyboards, the first of which reports an empty
    path. *)
Definition two_keyboards : string :=
  join newline
    [ "dfu-util 0.9"; "";
      found_dfu "" "0" "Flash"
                "5335310050464D4B3530343232333033 - sam4s4b:04E3";
      found_dfu "1-1" "0" "Flash"
                "5335310050464D4B3530343232333044 - sam4s4b:04E3";
      "" ].

(** *** Extra vocabulary: serial strings *)

(** A character that is neither a space nor a colon: what the serial
    number, a chip name or a revision of a serial string is made of. *)
Definition serial_char (c : ascii) : bool := differs " " c && differs ":" c.

(** The serial string of a device without a radio, from its parts. *)
Definition mcu_serial (serial chip hexrev : string) : string :=
  serial +:+ " - " +:+ chip +:+ ":" +:+ hexrev.

(** The serial string of a device with a radio. *)
Definition radio_serial (serial chip hexrev ble_serial ble_chip ble_hexrev : string)
  : string :=
  mcu_serial serial chip hexrev +:+ " | "
  +:+ ble_serial +:+ " - " +:+ ble_chip +:+ ":" +:+ ble_hexrev.

(** The paths of the interfaces that the loop of [Dfu.__init__] has kept:
    no non-empty path before one is recorded, and only the recorded path
    after. *)
Definition paths_agree (pf : option string) (acc : list DfuInfo.t) : Prop :=
  forall i, i ∈ acc -> truthy (DfuInfo.path i) = true ->
            truthy pf = true /\ DfuInfo.path i = pf.

(** The output with one keyboard and its two alt-settings. *)
Definition keyboard_two_alts : string :=
  join newline
    [ "dfu-util 0.9"; "";
      found_dfu "1-2.3" "0" "Flash"
                "5335310050464D4B3530343232333033 - sam4s4b:04E3";
      found_dfu "1-2.3" "1" "BLE"
                "5335310050464D4B3530343232333033 - sam4s4b:04E3";
      "" ].

(** *** Extra vocabulary: tool runs *)

(** What [subprocess.run(argv, check=True)] leaves behind: the run is
    recorded, and a non-zero exit status is an exception. *)
Definition run_outcome (exit_ok : list string -> bool) (argv : list string)
           (w : world) : result unit * world :=
  (if exit_ok argv then Ok tt else Raise CalledProcessError,
   World (objs w) (next_ref w) (events w ++ [ev_run argv])%list).

(** The arguments by which [download], [upload] and [reset] address the
    device. *)
Definition device_prefix (alt : Z) (device path : string) : list string :=
  [dfu.dfu_bin; "--alt"; str alt; "--device"; device; "--path"; path].

(** The size arguments of [upload]. *)
Definition upload_size_args (file_size : option Z) : list string :=
  match file_size with
  | Some n => if n =? 0 then [] else ["--upload-size"; str n]
  | None => []
  end.

(** *** Extra vocabulary: [samba_bootloader] *)

(** The digits that ['{:04x}'.format] produces. *)
Definition is_lower_hex (c : ascii) : bool :=
  let n := nat_of_ascii c in
  ((48 <=? n) && (n <=? 57) || (97 <=? n) && (n <=? 102))%nat.

(** The loop of [samba_bootloader] that writes the words of the serial
    number to the temporary file (dfu.py, lines 414-415). *)
Definition write_words : list Z -> IO unit :=
  fix write_words (ws : list Z) : IO unit :=
    match ws with
    | [] => mret tt
    | word :: rest =>
        data ← io_lift (pack_I word);
        _ ← io_emit (ev_write data);
        write_words rest
    end.



(** *** Extra vocabulary: [BossaInfo] *)

(** The attributes of a [BossaInfo] object. *)
Definition attributes : list string :=
  [ "device"; "version"; "version_date"; "address"; "pages"; "page_size";
    "total_size"; "planes"; "lock_region"; "locked"; "security";
    "boot_flash"; "unique_id" ].

(** The lines for which [BossaInfo.set] logs a warning. *)
Definition warned (line : string) : bool :=
  unrecognized line && negb (String.eqb line "").

(** *** Extra vocabulary: [Bossa.from_udev], [retrieve_firmware_revision] *)

(** The device nodes among which [Bossa.from_udev] chooses: those below
    the [cdc_acm] children of the matched devices. *)
Definition candidates (matches : list Bossa.udev_device) : list string :=
  (matches ≫= Bossa.device_entries).*1.

(** One of the three names that [retrieve_firmware_revision] looks for
    occurs in the text. *)
Definition has_key (text : string) : bool :=
  contains "CLI_RevisionNumber" text || contains "BCD_VERSION" text
  || contains "GIT_COMMIT_NUMBER" text.

(** A line of the file in which one of the names occurs. *)
Definition key_line (line : string) : bool :=
  has_key (rstrip_chars is_space line).

(** What [retrieve_firmware_revision] returns at a line with one of the
    names. *)
Definition revision_of (line : string) : result (option Z) :=
  n ← last_int (rstrip_chars is_space line); mret (Some n).

(* ===================================================================== *)
(** ** Properties *)
(* ===================================================================== *)

(** *** The result monad *)

Lemma bind_Ok_inv {A B} (m : result A) (k : A -> result B) (b : B) :
  (m ≫= k) = Ok b -> exists a, m = Ok a /\ k a = Ok b.
Proof. destruct m as [a|e]; simpl; [eauto | discriminate]. Qed.

Lemma getitem_Ok {A} (xs : list A) (i : nat) (x : A) :
  getitem xs i = Ok x <-> xs !! i = Some x.
Proof. unfold getitem. destruct (xs !! i); split; congruence. Qed.

Tactic Notation "bind_inv" hyp(H) "as" ident(a) ident(Ha) :=
  apply bind_Ok_inv in H; destruct H as [a [Ha H]].

(** *** Strings *)

Lemma all_chars_impl (f g : ascii -> bool) (s : string) :
  (forall c, f c = true -> g c = true) ->
  all_chars f s = true -> all_chars g s = true.
Proof.
  intros Hfg. induction s as [|c s IH]; simpl; [done|].
  intros [Hc Hs]%andb_prop. rewrite (Hfg _ Hc), (IH Hs). done.
Qed.

Lemma append_cons (c : ascii) (s t : string) :
  String c s +:+ t = String c (s +:+ t).
Proof. reflexivity. Qed.

Lemma all_chars_app (f : ascii -> bool) (s1 s2 : string) :
  all_chars f (s1 +:+ s2) = all_chars f s1 && all_chars f s2.
Proof.
  induction s1 as [|c s1 IH]; [done|].
  rewrite append_cons. simpl. rewrite IH. apply andb_assoc.
Qed.

Lemma append_empty_r (s : string) : s +:+ "" = s.
Proof. induction s as [|c s IH]; [done|]. rewrite append_cons. by f_equal. Qed.

Lemma startswith_differs (a : ascii) (p s : string) (c : ascii) :
  differs a c = true -> startswith (String a p) (String c s) = false.
Proof. unfold differs. simpl. by intros ->%negb_true_iff. Qed.

(** A text that has no character equal to the first character of the
    pattern is skipped by the search. *)
Lemma contains_app_differs (a : ascii) (p d r : string) :
  all_chars (differs a) d = true ->
  contains (String a p) (d +:+ r) = contains (String a p) r.
Proof.
  induction d as [|c d IH]; [done|].
  intros [Hc Hd]%andb_prop.
  change (contains (String a p) (String c d +:+ r))
    with (startswith (String a p) (String c (d +:+ r))
          || contains (String a p) (d +:+ r)).
  rewrite (startswith_differs _ _ _ _ Hc). simpl. auto.
Qed.

Lemma contains_differs (a : ascii) (p d : string) :
  all_chars (differs a) d = true -> contains (String a p) d = false.
Proof.
  intros H. rewrite <- (append_empty_r d).
  rewrite contains_app_differs by done. reflexivity.
Qed.

Lemma contains_one_false (a : ascii) (s : string) :
  contains (String a "") s = false -> all_chars (differs a) s = true.
Proof.
  induction s as [|c s IH]; [done|].
  change (contains (String a "") (String c s))
    with (Ascii.eqb a c && true || contains (String a "") s).
  intros [H1 H2]%orb_false_elim. simpl. rewrite (IH H2).
  unfold differs. rewrite andb_true_r in H1. by rewrite H1.
Qed.

Lemma contains_startswith (p s : string) :
  startswith p s = true -> contains p s = true.
Proof. intros H. destruct s; simpl in *; by rewrite H. Qed.

Lemma split_go_app_differs (a : ascii) (p : string) (m : option nat)
      (d r : string) :
  all_chars (differs a) d = true ->
  split_go (String a p) m 0 (d +:+ r)
  = prepend_head d (split_go (String a p) m 0 r).
Proof.
  induction d as [|c d IH]; [done|].
  intros [Hc Hd]%andb_prop.
  change (split_go (String a p) m 0 (String c d +:+ r))
    with (if may_split m && startswith (String a p) (String c (d +:+ r))
          then "" :: split_go (String a p) (dec_split m)
                              (Nat.pred (String.length (String a p))) (d +:+ r)
          else cons_head c (split_go (String a p) m 0 (d +:+ r))).
  rewrite (startswith_differs _ _ _ _ Hc), andb_false_r. simpl.
  by rewrite IH.
Qed.

Lemma prepend_head_cons (d h : string) (t : list string) :
  prepend_head d (h :: t) = (d +:+ h) :: t.
Proof.
  induction d as [|c d IH]; [done|]. rewrite append_cons. simpl. by rewrite IH.
Qed.

Lemma split_go_differs (a : ascii) (p : string) (m : option nat) (d : string) :
  all_chars (differs a) d = true -> split_go (String a p) m 0 d = [d].
Proof.
  intros H. rewrite <- (append_empty_r d) at 1.
  rewrite split_go_app_differs by done. simpl.
  by rewrite prepend_head_cons, append_empty_r.
Qed.

(** A string without the one-character separator is a single field. *)
Lemma split_without_sep (a : ascii) (s : string) :
  contains (String a "") s = false -> split (String a "") s = [s].
Proof. intros H. apply split_go_differs, contains_one_false, H. Qed.

(** *** [parse_serial] *)

Section parse_serial_facts.

Variables (raw : string) (r : rdict.t).
Hypothesis parsed : DfuInfo.parse_serial raw = Ok r.

Let toks := split " " raw.

(** The three BLE fields are set together, and exactly when the split has
    more than five pieces. *)
Lemma ble_fields_long :
  (6 <= length toks)%nat ->
  exists tok6 hexrev v,
    toks !! 6%nat = Some tok6 /\
    split ":" tok6 !! 1%nat = Some hexrev /\
    int 16 hexrev = Ok v /\
    rdict.ble_serial r = toks !! 4%nat /\
    rdict.ble_chip r = split ":" tok6 !! 0%nat /\
    rdict.ble_revision r = Some v.
Proof.
  intros Hlen. pose proof parsed as H. unfold DfuInfo.parse_serial in H.
  fold toks in H.
  bind_inv H as tok2 Htok2. bind_inv H as cm Hcm. destruct cm as [c m].
  bind_inv H as ble Hble. destruct ble as [[bs bc] br].
  bind_inv H as s0 Hs0. injection H as <-. simpl.
  destruct (5 <? length toks)%nat eqn:E.
  - bind_inv Hble as t4 H4. bind_inv Hble as tok6 H6.
    bind_inv Hble as bc0 Hbc. bind_inv Hble as hexrev Hrev.
    bind_inv Hble as v Hv. injection Hble as <- <- <-.
    apply getitem_Ok in H4, H6, Hbc, Hrev.
    exists tok6, hexrev, v. rewrite H4, Hbc. repeat split; auto.
  - apply Nat.ltb_ge in E. lia.
Qed.

Lemma ble_fields_short :
  (length toks < 6)%nat ->
  rdict.ble_serial r = None /\ rdict.ble_chip r = None /\
  rdict.ble_revision r = None.
Proof.
  intros Hlen. pose proof parsed as H. unfold DfuInfo.parse_serial in H.
  fold toks in H.
  bind_inv H as tok2 Htok2. bind_inv H as cm Hcm. destruct cm as [c m].
  bind_inv H as ble Hble. destruct ble as [[bs bc] br].
  bind_inv H as s0 Hs0. injection H as <-. simpl.
  destruct (5 <? length toks)%nat eqn:E.
  - apply Nat.ltb_lt in E. lia.
  - injection Hble as <- <- <-. auto.
Qed.

(** Without a [:] part in the third piece there is no revision. *)
Lemma mcu_revision_absent :
  (forall tok2, toks !! 2%nat = Some tok2 -> (length (split ":" tok2) <= 1)%nat) ->
  rdict.mcu_revision r = None /\ Some (rdict.chip r) = toks !! 2%nat.
Proof.
  intros Hno. pose proof parsed as H. unfold DfuInfo.parse_serial in H.
  fold toks in H.
  bind_inv H as tok2 Htok2. bind_inv H as cm Hcm. destruct cm as [c m].
  bind_inv H as ble Hble. destruct ble as [[bs bc] br].
  bind_inv H as s0 Hs0. injection H as <-. simpl.
  apply getitem_Ok in Htok2. specialize (Hno _ Htok2).
  destruct (1 <? length (split ":" tok2))%nat eqn:E.
  - apply Nat.ltb_lt in E. lia.
  - injection Hcm as <- <-. auto.
Qed.

End parse_serial_facts.

(** C5: for a raw serial that [parse_serial] accepts, the fields
    [ble_serial], [ble_chip] and [ble_revision] of the returned record are
    all present exactly when the string splits into at least six
    space-separated pieces; then [ble_serial] is piece 4, and piece 6, split
    at the colon, gives [ble_chip] and, read as a hexadecimal number,
    [ble_revision]. *)
Theorem C5_ble_fields_iff_six_tokens (raw : string) (r : rdict.t) :
  DfuInfo.parse_serial raw = Ok r ->
  let toks := split " " raw in
  ((is_Some (rdict.ble_serial r) /\ is_Some (rdict.ble_chip r) /\
    is_Some (rdict.ble_revision r)) <-> (6 <= length toks)%nat) /\
  ((is_Some (rdict.ble_serial r) \/ is_Some (rdict.ble_chip r) \/
    is_Some (rdict.ble_revision r)) -> (6 <= length toks)%nat) /\
  ((6 <= length toks)%nat ->
   exists tok6 hexrev v,
     toks !! 6%nat = Some tok6 /\
     split ":" tok6 !! 1%nat = Some hexrev /\
     int 16 hexrev = Ok v /\
     rdict.ble_serial r = toks !! 4%nat /\
     rdict.ble_chip r = split ":" tok6 !! 0%nat /\
     rdict.ble_revision r = Some v).
Proof.
  intros H toks.
  assert (Hshort : (length toks < 6)%nat ->
            ~ (is_Some (rdict.ble_serial r) \/ is_Some (rdict.ble_chip r) \/
               is_Some (rdict.ble_revision r))).
  { intros Hlt. destruct (ble_fields_short raw r H Hlt) as (-> & -> & ->).
    intros [[x Hx] | [[x Hx] | [x Hx]]]; discriminate. }
  split; [split | split].
  - intros (Hs & _). destruct (le_lt_dec 6 (length toks)) as [|Hlt]; [done|].
    exfalso. apply (Hshort Hlt). auto.
  - intros Hlen.
    destruct (ble_fields_long raw r H Hlen)
      as (tok6 & hexrev & v & H6 & H1 & Hv & Hbs & Hbc & Hbr).
    fold toks in Hbs. rewrite Hbs, Hbc, Hbr. repeat split.
    + apply lookup_lt_is_Some. lia.
    + apply lookup_lt_is_Some. apply lookup_lt_Some in H1. lia.
    + eauto.
  - intros Hany. destruct (le_lt_dec 6 (length toks)) as [|Hlt]; [done|].
    exfalso. exact (Hshort Hlt Hany).
  - apply (ble_fields_long raw r H).
Qed.

Lemma C5_witness :
  let r := rdict.mk "5335310050464D4B3530343232333033" "sam4s4b" (Some 1251)
                    (Some "697E97E3A186C5DF") (Some "nRF52810") (Some 21) in
  let toks := split " " serial_with_radio in
  DfuInfo.parse_serial serial_with_radio = Ok r /\
  (6 <= length toks)%nat /\
  (is_Some (rdict.ble_serial r) /\ is_Some (rdict.ble_chip r) /\
   is_Some (rdict.ble_revision r)) /\
  exists tok6 hexrev v,
    toks !! 6%nat = Some tok6 /\
    split ":" tok6 !! 1%nat = Some hexrev /\
    int 16 hexrev = Ok v /\
    rdict.ble_serial r = toks !! 4%nat /\
    rdict.ble_chip r = split ":" tok6 !! 0%nat /\
    rdict.ble_revision r = Some v.
Proof.
  intros r toks.
  assert (Hparse : DfuInfo.parse_serial serial_with_radio = Ok r)
    by (vm_compute; reflexivity).
  assert (Hlen : (6 <= length toks)%nat) by (vm_compute; lia).
  destruct (C5_ble_fields_iff_six_tokens serial_with_radio r Hparse)
    as (Hiff & _ & Hlong).
  split; [exact Hparse|]. split; [exact Hlen|].
  split; [exact (proj2 Hiff Hlen) | exact (Hlong Hlen)].
Defined.

(** C6: the serial of a device without a radio parses to its serial number,
    chip and revision 0x04E3, with the three BLE fields [None]; and for
    every accepted serial, a third piece without a colon leaves
    [mcu_revision] at [None], fewer than six pieces leave the BLE fields at
    [None] (no 0 or empty string stands in for a missing part). *)
Theorem C6_absent_segments_are_None :
  DfuInfo.parse_serial "5335310050464D4B3530343232333033 - sam4s4b:04E3"
  = Ok (rdict.mk "5335310050464D4B3530343232333033" "sam4s4b" (Some 0x04E3)
                 None None None) /\
  forall (raw : string) (r : rdict.t),
    DfuInfo.parse_serial raw = Ok r ->
    ((forall tok2, split " " raw !! 2%nat = Some tok2 -> contains ":" tok2 = false) ->
     rdict.mcu_revision r = None /\ rdict.mcu_revision r <> Some 0) /\
    ((length (split " " raw) < 6)%nat ->
     rdict.ble_serial r = None /\ rdict.ble_chip r = None /\
     rdict.ble_revision r = None /\
     rdict.ble_serial r <> Some "" /\ rdict.ble_chip r <> Some "" /\
     rdict.ble_revision r <> Some 0).
Proof.
  split; [vm_compute; reflexivity|].
  intros raw r H. split.
  - intros Hno.
    destruct (mcu_revision_absent raw r H) as [-> _]; [|done].
    intros tok2 Htok. rewrite split_without_sep; [simpl; lia|]. auto.
  - intros Hlen. destruct (ble_fields_short raw r H Hlen) as (-> & -> & ->).
    done.
Qed.

Lemma C6_witness :
  let raw := "5335310050464D4B3530343232333033 - sam4s4b" in
  let r := rdict.mk "5335310050464D4B3530343232333033" "sam4s4b"
                    None None None None in
  DfuInfo.parse_serial raw = Ok r /\
  (rdict.mcu_revision r = None /\ rdict.mcu_revision r <> Some 0) /\
  (rdict.ble_serial r = None /\ rdict.ble_chip r = None /\
   rdict.ble_revision r = None /\
   rdict.ble_serial r <> Some "" /\ rdict.ble_chip r <> Some "" /\
   rdict.ble_revision r <> Some 0).
Proof.
  intros raw r.
  assert (Hparse : DfuInfo.parse_serial raw = Ok r) by (vm_compute; reflexivity).
  destruct (proj2 C6_absent_segments_are_None raw r Hparse) as [Hmcu Hble].
  split; [exact Hparse|]. split.
  - apply Hmcu. intros tok2 Htok. vm_compute in Htok.
    injection Htok as <-. reflexivity.
  - apply Hble. vm_compute. lia.
Defined.

(** *** [int(str(n))] *)

Lemma uint_chars (d : Decimal.uint) :
  all_chars is_num_char (NilEmpty.string_of_uint d) = true.
Proof. induction d; simpl; auto. Qed.

Lemma str_chars (n : Z) : all_chars is_num_char (str n) = true.
Proof.
  unfold str. destruct n as [|p|p]; simpl; [done| |].
  - unfold NilZero.string_of_uint. destruct (Pos.to_uint p) eqn:E;
      rewrite <- ?E; auto using uint_chars.
  - unfold NilZero.string_of_uint. destruct (Pos.to_uint p) eqn:E;
      rewrite <- ?E; auto using uint_chars.
Qed.

Lemma num_char_facts (c : ascii) :
  is_num_char c = true ->
  is_space c = false /\ differs ":" c = true /\ differs "K" c = true /\
  differs "M" c = true /\ differs "D" c = true /\ differs "V" c = true /\
  differs "A" c = true /\ differs "P" c = true /\ differs "_" c = true /\
  differs "+" c = true /\ differs nl c = true.
Proof.
  destruct c as [[] [] [] [] [] [] [] []]; vm_compute; intros H;
    first [discriminate H | repeat split].
Qed.

Lemma lstrip_nonspace (f : ascii -> bool) (s : string) :
  all_chars (fun c => negb (f c)) s = true -> lstrip_chars f s = s.
Proof. destruct s as [|c s]; simpl; [done|]. by intros [->%negb_true_iff _]%andb_prop. Qed.

Lemma rstrip_nonspace (f : ascii -> bool) (s : string) :
  all_chars (fun c => negb (f c)) s = true -> rstrip_chars f s = s.
Proof.
  induction s as [|c s IH]; simpl; [done|].
  intros [Hc%negb_true_iff Hs]%andb_prop. rewrite (IH Hs), Hc. by destruct s.
Qed.

Lemma strip_num (s : string) :
  all_chars is_num_char s = true -> strip_chars is_space s = s.
Proof.
  intros H. assert (all_chars (fun c => negb (is_space c)) s = true).
  { revert H. apply all_chars_impl. intros c Hc.
    by destruct (num_char_facts c Hc) as [-> _]. }
  unfold strip_chars. by rewrite lstrip_nonspace, rstrip_nonspace.
Qed.

(** Evaluates the test for an underscore and the digit value of a literal
    character in the goal. *)
Ltac read_digit :=
  match goal with
  | |- context [Ascii.eqb ?a underscore] =>
      change (Ascii.eqb a underscore) with false
  end;
  match goal with
  | |- context [digit_val 10 ?c] =>
      let v := eval vm_compute in (digit_val 10 c) in
      change (digit_val 10 c) with v
  end;
  cbv iota beta.

Lemma read_digits_acc (d : Decimal.uint) (acc : positive) :
  read_digits 10 false (Z.pos acc) (NilEmpty.string_of_uint d)
  = Some (Z.pos (Pos.of_uint_acc d acc)).
Proof.
  revert acc. induction d; intros acc; [done|..];
    cbn [NilEmpty.string_of_uint Pos.of_uint_acc]; rewrite <- IHd;
    unfold read_digits at 1; fold read_digits; read_digit; f_equal; lia.
Qed.

Lemma read_digits_zero (d : Decimal.uint) :
  read_digits 10 false 0 (NilEmpty.string_of_uint d)
  = Some (Z.of_N (Pos.of_uint d)).
Proof.
  induction d; [done|..];
    cbn [NilEmpty.string_of_uint Pos.of_uint];
    unfold read_digits at 1; fold read_digits; read_digit;
    first [exact IHd | apply read_digits_acc].
Qed.

Lemma read_digits_first (d : Decimal.uint) (b : bool) :
  d <> Decimal.Nil ->
  read_digits 10 b 0 (NilEmpty.string_of_uint d)
  = read_digits 10 false 0 (NilEmpty.string_of_uint d).
Proof. destruct d; [done|..]; intros _; reflexivity. Qed.

Lemma read_unsigned_uint (d : Decimal.uint) :
  d <> Decimal.Nil ->
  read_unsigned 10 (NilEmpty.string_of_uint d) = Some (Z.of_N (Pos.of_uint d)).
Proof.
  intros Hd. unfold read_unsigned.
  assert (drop_base_prefix 10 (NilEmpty.string_of_uint d) = None) as ->.
  { destruct d as [|d'|d'|d'|d'|d'|d'|d'|d'|d'|d']; try done.
    simpl. by destruct (NilEmpty.string_of_uint d'). }
  rewrite read_digits_first by done. apply read_digits_zero.
Qed.

Lemma uint_first_char (d : Decimal.uint) (c : ascii) (s : string) :
  NilEmpty.string_of_uint d = String c s ->
  Ascii.eqb c "-" = false /\ Ascii.eqb c "+" = false.
Proof. destruct d; simpl; [done|..]; intros [= <- _]; done. Qed.

(** Reading back the decimal numeral of an integer gives the integer. *)
Lemma int_str (n : Z) : int 10 (str n) = Ok n.
Proof.
  unfold int, int_opt. rewrite strip_num by apply str_chars.
  unfold str. destruct n as [|p|p]; [done| |].
  - simpl. pose proof (DecimalPos.Unsigned.to_uint_nonnil p) as Hnn.
    assert (NilZero.string_of_uint (Pos.to_uint p)
            = NilEmpty.string_of_uint (Pos.to_uint p)) as ->.
    { unfold NilZero.string_of_uint. by destruct (Pos.to_uint p). }
    pose proof (read_unsigned_uint _ Hnn) as Hr.
    rewrite DecimalPos.Unsigned.of_to in Hr.
    destruct (NilEmpty.string_of_uint (Pos.to_uint p)) as [|c s] eqn:E.
    + by destruct (Pos.to_uint p).
    + destruct (uint_first_char _ _ _ E) as [H1 H2].
      rewrite H1, H2, Hr. done.
  - simpl. pose proof (DecimalPos.Unsigned.to_uint_nonnil p) as Hnn.
    assert (NilZero.string_of_uint (Pos.to_uint p)
            = NilEmpty.string_of_uint (Pos.to_uint p)) as ->.
    { unfold NilZero.string_of_uint. by destruct (Pos.to_uint p). }
    rewrite read_unsigned_uint by done.
    rewrite DecimalPos.Unsigned.of_to. done.
Qed.

(** *** [BossaInfo.set] on a [Total Size] line *)

Lemma plain_value_num (c : ascii) :
  is_num_char c = true -> plain_value_char c = true.
Proof.
  intros H. unfold plain_value_char.
  destruct (num_char_facts c H) as (_ & -> & _ & _ & -> & -> & -> & -> & _ & _ & ->).
  done.
Qed.

Section total_size_line.

Variables (self : BossaInfo.t) (v : string).
Hypothesis plain : all_chars plain_value_char v = true.

Let line := "Total Size: " +:+ v.

Lemma plain_differs (a : ascii) :
  (forall c, plain_value_char c = true -> differs a c = true) ->
  all_chars (differs a) v = true.
Proof. intros H. revert plain. by apply all_chars_impl. Qed.

Ltac plain_imp :=
  let c := fresh "c" in
  intros c; unfold plain_value_char; rewrite !andb_true_iff; tauto.
Ltac plain_char := apply plain_differs; plain_imp.

Lemma total_size_not_label (a : ascii) (p : string) :
  all_chars (differs a) "Total Size: " = true ->
  (forall c, plain_value_char c = true -> differs a c = true) ->
  contains (String a p) line = false.
Proof.
  intros Ha Hv. unfold line.
  rewrite contains_app_differs by exact Ha.
  apply contains_differs, plain_differs, Hv.
Qed.

Lemma total_size_value : BossaInfo.value_of line = Ok v.
Proof.
  unfold BossaInfo.value_of, split, line.
  change ("Total Size: " +:+ v) with ("Total Size" +:+ String ":" (String " " v)).
  rewrite split_go_app_differs by reflexivity.
  change (split_go ": " None 0 (String ":" (String " " v)))
    with ("" :: split_go ": " None 0 v).
  rewrite split_go_differs by plain_char.
  reflexivity.
Qed.

Lemma total_size_single_line : split newline line = [line].
Proof.
  apply split_go_differs. unfold line. rewrite all_chars_app.
  apply andb_true_intro. split; [reflexivity | plain_char].
Qed.

(** The line is handled by the [Total Size] branch. *)
Lemma set_line_total_size :
  BossaInfo.set_line self line =
  if contains "KB" v then
    w ← getitem (split "KB" v) 0; n ← int 10 w;
    mret (<["total_size" := VInt (n * 1024)]> self, [])
  else if contains "MB" v then
    w ← getitem (split "MB" v) 0; n ← int 10 w;
    mret (<["total_size" := VInt (n * 1024 * 1024)]> self, [])
  else mret (self, []).
Proof.
  unfold BossaInfo.set_line. fold line.
  rewrite (total_size_not_label "D" "evice") by (reflexivity || plain_imp).
  rewrite (total_size_not_label "V" "ersion") by (reflexivity || plain_imp).
  rewrite (total_size_not_label "A" "ddress") by (reflexivity || plain_imp).
  rewrite (total_size_not_label "P" "ages") by (reflexivity || plain_imp).
  rewrite (total_size_not_label "P" "age Size") by (reflexivity || plain_imp).
  assert (contains "Total Size" line = true) as ->
      by (apply contains_startswith; reflexivity).
  rewrite total_size_value. reflexivity.
Qed.

End total_size_line.

Lemma str_differs (a : ascii) (n : Z) :
  (forall c, is_num_char c = true -> differs a c = true) ->
  all_chars (differs a) (str n) = true.
Proof. intros H. generalize (str_chars n). by apply all_chars_impl. Qed.

Lemma str_plain (n : Z) (unit : string) :
  all_chars plain_value_char unit = true ->
  all_chars plain_value_char (str n +:+ unit) = true.
Proof.
  intros H. rewrite all_chars_app, H, andb_true_r.
  generalize (str_chars n). apply all_chars_impl, plain_value_num.
Qed.

(** The value [nKB] or [nMB] splits at its unit into the numeral of [n]. *)
Lemma split_unit (a b : ascii) (n : Z) :
  (forall c, is_num_char c = true -> differs a c = true) ->
  getitem (split (String a (String b "")) (str n +:+ String a (String b ""))) 0
  = Ok (str n).
Proof.
  intros H. unfold split. rewrite split_go_app_differs by by apply str_differs.
  change (split_go (String a (String b "")) None 0 (String a (String b "")))
    with (if (a =? a)%char && ((b =? b)%char && true)
          then [""; ""] else cons_head a (split_go (String a (String b "")) None 0 (String b ""))).
  rewrite !Ascii.eqb_refl. simpl.
  by rewrite prepend_head_cons, append_empty_r.
Qed.

Lemma contains_unit (a b : ascii) (p : string) (n : Z) :
  (forall c, is_num_char c = true -> differs a c = true) ->
  contains (String a p) (str n +:+ String b "B")
  = contains (String a p) (String b "B").
Proof. intros H. apply contains_app_differs. by apply str_differs. Qed.

(** C9: for every integer [n], the line [Total Size: nKB] sets [total_size]
    to [n * 1024] and the line [Total Size: nMB] sets it to
    [n * 1024 * 1024]; an info text with the line [Total Size: 1024KB]
    gives [total_size = 1024 * 1024]. *)
Theorem C9_total_size_scaled :
  (forall (n : Z) (self : BossaInfo.t),
      BossaInfo.set self ("Total Size: " +:+ str n +:+ "KB")
      = Ok (<["total_size" := VInt (n * 1024)]> self, []) /\
      BossaInfo.set self ("Total Size: " +:+ str n +:+ "MB")
      = Ok (<["total_size" := VInt (n * 1024 * 1024)]> self, [])) /\
  (exists r, BossaInfo.__init__ sample_info = Ok (r, []) /\
             r !! "total_size" = Some (VInt (1024 * 1024))).
Proof.
  split.
  - intros n self.
    pose proof (fun c H => proj1 (proj2 (proj2 (num_char_facts c H)))) as HK.
    pose proof (fun c H =>
                  proj1 (proj2 (proj2 (proj2 (num_char_facts c H))))) as HM.
    split; unfold BossaInfo.set.
    + rewrite total_size_single_line by (by apply str_plain).
      cbn [BossaInfo.set_lines].
      rewrite set_line_total_size by (by apply str_plain).
      rewrite (contains_unit "K" "K" "B") by exact HK.
      change (contains "KB" "KB") with true. cbv iota.
      rewrite (split_unit "K" "B") by exact HK.
      simpl. rewrite int_str. reflexivity.
    + rewrite total_size_single_line by (by apply str_plain).
      cbn [BossaInfo.set_lines].
      rewrite set_line_total_size by (by apply str_plain).
      rewrite (contains_unit "K" "M" "B") by exact HK.
      change (contains "KB" "MB") with false. cbv iota.
      rewrite (contains_unit "M" "M" "B") by exact HM.
      change (contains "MB" "MB") with true. cbv iota.
      rewrite (split_unit "M" "B") by exact HM.
      simpl. rewrite int_str. reflexivity.
  - eexists. split; vm_compute; reflexivity.
Qed.

(** *** Lines that [BossaInfo.set] does not recognize *)




(** *** [BossaInfo.set] and the order of the lines *)

(** Case analysis on a list that is matched against [[a; b]]. *)
Ltac two_fields l :=
  let t := fresh "t" in
  destruct l as [|? t]; [|destruct t as [|? t]; [|destruct t]].

(** What a line does to the object does not depend on the object: it
    overlays the attributes that the line assigns. *)
Lemma set_line_delta (self : BossaInfo.t) (line : string) :
  BossaInfo.set_line self line
  = '(d, w) ← BossaInfo.set_line ∅ line; Ok (d ∪ self, w).
Proof.
  unfold BossaInfo.set_line.
  repeat match goal with
         | |- context [if contains ?l ?s then _ else _] =>
             destruct (contains l s)
         | |- context [BossaInfo.value_of line] =>
             destruct (BossaInfo.value_of line); simpl
         | |- context [int ?b ?x] => destruct (int b x); simpl
         | |- context [getitem ?b ?x] => destruct (getitem b x); simpl
         | |- context [splitn ?a ?b ?x] => two_fields (splitn a b x); simpl
         | |- context [String.eqb line ?x] => destruct (String.eqb line x); simpl
         end;
    unfold mret, result_ret; simpl;
    rewrite <- ?insert_union_l, ?(left_id_L ∅ (∪)); reflexivity.
Qed.

(** The attributes that a line assigns belong to the label under which the
    line is read. *)
Lemma set_line_owner (line : string) (d : BossaInfo.t) (w : list string)
      (k : string) :
  BossaInfo.set_line ∅ line = Ok (d, w) -> is_Some (d !! k) ->
  exists label, owner k = Some label /\ classify line = Some label.
Proof.
  unfold BossaInfo.set_line, classify, labels. cbn [List.find].
  repeat match goal with
         | |- context [if contains ?l line then _ else _] =>
             destruct (contains l line)
         end;
    intros H Hk;
    repeat match type of H with
           | (_ ≫= _) = Ok _ =>
               let x := fresh "x" in
               let Hx := fresh "Hx" in
               bind_inv H as x Hx; cbv beta in H
           | context [splitn ?a ?b ?c] => two_fields (splitn a b c)
           | context [if contains ?a ?b then _ else _] => destruct (contains a b)
           | context [if String.eqb ?a ?b then _ else _] =>
               destruct (String.eqb a b)
           end;
    try discriminate H; injection H as <- <-.
  all: repeat match type of Hk with
              | is_Some (<[_:=_]> _ !! _) =>
                  apply lookup_insert_is_Some' in Hk; destruct Hk as [<- | Hk];
                  [eexists; split; reflexivity|]
              end.
  all: by apply lookup_empty_is_Some in Hk.
Qed.

Lemma set_line_disjoint (x y : string) (dx dy : BossaInfo.t)
      (wx wy : list string) :
  (forall label, classify x = Some label -> classify y = Some label -> False) ->
  BossaInfo.set_line ∅ x = Ok (dx, wx) ->
  BossaInfo.set_line ∅ y = Ok (dy, wy) ->
  dx ##ₘ dy.
Proof.
  intros Hxy Hx Hy. apply map_disjoint_spec. intros k vx vy Hkx Hky.
  destruct (set_line_owner x dx wx k Hx) as (lx & Hox & Hcx); [by eexists|].
  destruct (set_line_owner y dy wy k Hy) as (ly & Hoy & Hcy); [by eexists|].
  apply (Hxy lx); congruence.
Qed.

Lemma same_record_refl a : same_record a a.
Proof. by destruct a as [[r w]|e]. Qed.

Lemma same_record_trans a b c :
  same_record a b -> same_record b c -> same_record a c.
Proof.
  destruct a as [[? ?]|?], b as [[? ?]|?], c as [[? ?]|?]; simpl;
    intros; try done; congruence.
Qed.

Lemma same_record_step (w : list string)
      (a b : result (BossaInfo.t * list string)) :
  same_record a b ->
  same_record ('(s, w2) ← a; mret (s, (w ++ w2)%list))
              ('(s, w2) ← b; mret (s, (w ++ w2)%list)).
Proof. by destruct a as [[? ?]|?], b as [[? ?]|?]. Qed.

Lemma labels_distinct_tail (x : string) (lines : list string) :
  labels_distinct (x :: lines) -> labels_distinct lines.
Proof.
  unfold labels_distinct. simpl. destruct (classify x); [|done].
  by intros [_ ?]%NoDup_cons.
Qed.

Lemma labels_distinct_head (x y : string) (lines : list string) :
  labels_distinct (x :: y :: lines) ->
  forall label, classify x = Some label -> classify y = Some label -> False.
Proof.
  unfold labels_distinct. simpl. intros H label Hx Hy.
  rewrite Hx, Hy in H. apply NoDup_cons in H as [Hnin _]. set_solver.
Qed.

(** Two neighbouring lines under different labels can be exchanged. *)
Lemma set_lines_swap (x y : string) (lines : list string)
      (self : BossaInfo.t) :
  (forall label, classify x = Some label -> classify y = Some label -> False) ->
  same_record (BossaInfo.set_lines self (y :: x :: lines))
              (BossaInfo.set_lines self (x :: y :: lines)).
Proof.
  intros Hxy. cbn [BossaInfo.set_lines].
  rewrite (set_line_delta self x), (set_line_delta self y).
  destruct (BossaInfo.set_line ∅ x) as [[dx wx]|ex] eqn:Hx;
    destruct (BossaInfo.set_line ∅ y) as [[dy wy]|ey] eqn:Hy; simpl.
  - rewrite (set_line_delta (dy ∪ self) x), (set_line_delta (dx ∪ self) y).
    rewrite Hx, Hy. simpl.
    assert (dx ∪ (dy ∪ self) = dy ∪ (dx ∪ self)) as ->.
    { rewrite !(assoc_L (∪)). f_equal. apply map_union_comm.
      eapply set_line_disjoint; eauto. }
    by destruct (BossaInfo.set_lines (dy ∪ (dx ∪ self)) lines) as [[? ?]|?].
  - rewrite (set_line_delta (dx ∪ self) y), Hy. done.
  - rewrite (set_line_delta (dy ∪ self) x), Hx. done.
  - done.
Qed.

Lemma set_lines_perm (lines1 lines2 : list string) :
  lines1 ≡ₚ lines2 -> labels_distinct lines1 ->
  forall self,
    same_record (BossaInfo.set_lines self lines1)
                (BossaInfo.set_lines self lines2).
Proof.
  induction 1 as [|x l l' Hp IH|x y l|l l' l'' Hp1 IH1 Hp2 IH2];
    intros Hd self.
  - apply same_record_refl.
  - cbn [BossaInfo.set_lines].
    destruct (BossaInfo.set_line self x) as [[s1 w1]|e]; simpl; [|done].
    apply same_record_step, IH. by eapply labels_distinct_tail.
  - apply set_lines_swap. intros label Hx Hy.
    eapply (labels_distinct_head y x); eauto.
  - eapply same_record_trans; [by apply IH1|]. apply IH2.
    unfold labels_distinct in *. by rewrite <- Hp1.
Qed.

(** Overlaying the attributes of a block a second time changes nothing. *)
Lemma set_lines_delta (lines : list string) (self : BossaInfo.t) :
  BossaInfo.set_lines self lines
  = '(d, w) ← BossaInfo.set_lines ∅ lines; Ok (d ∪ self, w).
Proof.
  revert self. induction lines as [|x lines IH]; intros self.
  - simpl. by rewrite (left_id_L ∅ (∪)).
  - cbn [BossaInfo.set_lines]. rewrite (set_line_delta self x).
    destruct (BossaInfo.set_line ∅ x) as [[dx wx]|ex]; simpl; [|done].
    rewrite (IH (dx ∪ self)), (IH dx).
    destruct (BossaInfo.set_lines ∅ lines) as [[d w]|e]; simpl; [|done].
    by rewrite (assoc_L (∪)).
Qed.

Lemma set_lines_twice (lines : list string) (self r : BossaInfo.t)
      (w : list string) :
  BossaInfo.set_lines self lines = Ok (r, w) ->
  BossaInfo.set_lines r lines = Ok (r, w).
Proof.
  rewrite (set_lines_delta lines self), (set_lines_delta lines r).
  destruct (BossaInfo.set_lines ∅ lines) as [[d w']|e]; simpl; [|done].
  intros [= <- <-]. by rewrite (assoc_L (∪)), (idemp_L (∪)).
Qed.

Lemma one_line_distinct (lines : list string) :
  one_line_per_label lines -> labels_distinct lines.
Proof.
  unfold one_line_per_label, labels_distinct. intros ->.
  apply (bool_decide_unpack (NoDup labels)). vm_compute. reflexivity.
Qed.

Lemma startswith_app (p q s : string) :
  startswith (p +:+ q) s = true -> startswith p s = true.
Proof.
  revert s. induction p as [|a p IH]; intros s; [done|].
  rewrite append_cons. destruct s as [|c s]; cbn [startswith]; [done|].
  destruct (Ascii.eqb a c); cbn [andb]; [apply IH|done].
Qed.

Lemma find_first (p : string -> bool) (chain : list string) (x : string) :
  x ∈ chain -> p x = true ->
  forallb (fun y => negb (p y)) (labels_before x chain) = true ->
  List.find p chain = Some x.
Proof.
  induction chain as [|y chain IH]; intros Hin Hp Hb.
  - by apply elem_of_nil in Hin.
  - cbn [labels_before] in Hb. cbn [List.find].
    destruct (String.eqb_spec y x) as [->|Hne].
    + by rewrite Hp.
    + cbn [forallb] in Hb. apply andb_true_iff in Hb as [Hy Hb].
      apply negb_true_iff in Hy. rewrite Hy. apply IH; [|done..].
      apply elem_of_cons in Hin as [->|Hin]; done.
Qed.

(** A line that starts with its label, and in which no label tested
    earlier occurs, is read under that label. *)
Lemma classify_own_label (line : string) :
  (String.eqb line "" || bool_decide (is_Some (line_label line))) = true ->
  own_label_first line = true ->
  classify line = line_label line.
Proof.
  unfold own_label_first. intros Hl Hown.
  destruct (line_label line) as [label|] eqn:E.
  - unfold line_label in E. pose proof (find_some _ _ E) as [Hin Hs].
    apply (find_first (fun l => contains l line)); [| |done].
    + by apply list_elem_of_In.
    + apply contains_startswith. by eapply startswith_app.
  - apply orb_true_iff in Hl as [Hl|Hl].
    + by apply String.eqb_eq in Hl as ->.
    + apply bool_decide_eq_true in Hl. by destruct Hl.
Qed.

Lemma valid_block_one_line (lines : list string) :
  valid_block lines -> forallb own_label_first lines = true ->
  one_line_per_label lines.
Proof.
  unfold valid_block, one_line_per_label. intros [Hperm Hall] Hown.
  rewrite <- Hperm. clear Hperm.
  assert (omap classify lines = omap line_label lines) as ->; [|done].
  induction lines as [|x lines IH]; [done|].
  cbn [forallb] in Hall, Hown.
  apply andb_true_iff in Hall as [Hx Hall].
  apply andb_true_iff in Hown as [Ox Hown].
  change (omap classify (x :: lines))
    with (match classify x with
          | Some y => y :: omap classify lines
          | None => omap classify lines
          end).
  by rewrite (classify_own_label x Hx Ox), (IH Hall Hown).
Qed.

(** C8, as amended: for an info block with one line per recognized label
    in which no line holds the text of a label that the parser tests
    before the line's own, parsing any permutation of the lines gives a
    record with the same attribute values (or fails as the block itself
    fails); and for every block, parsing it a second time into the record
    it produced gives that record again. *)
Theorem C8_order_independent (self : BossaInfo.t) (text1 text2 : string) :
  valid_block (split newline text1) ->
  forallb own_label_first (split newline text1) = true ->
  split newline text1 ≡ₚ split newline text2 ->
  same_record (BossaInfo.set self text1) (BossaInfo.set self text2) /\
  forall r w, BossaInfo.set self text1 = Ok (r, w) ->
              BossaInfo.set r text1 = Ok (r, w).
Proof.
  intros Hvalid Hown Hperm. unfold BossaInfo.set. split.
  - apply set_lines_perm; [done|].
    apply one_line_distinct. by apply valid_block_one_line.
  - intros r w. apply set_lines_twice.
Qed.

Lemma C8_witness :
  let text1 := sample_info in
  let text2 := join newline ("" :: reverse sample_info_lines) in
  same_record (BossaInfo.set BossaInfo.fresh text1)
              (BossaInfo.set BossaInfo.fresh text2) /\
  forall r w, BossaInfo.set BossaInfo.fresh text1 = Ok (r, w) ->
              BossaInfo.set r text1 = Ok (r, w).
Proof.
  apply (C8_order_independent BossaInfo.fresh sample_info
           (join newline ("" :: reverse sample_info_lines))).
  - split; vm_compute; reflexivity.
  - vm_compute. reflexivity.
  - change (split newline sample_info) with (sample_info_lines ++ [""])%list.
    change (split newline (join newline ("" :: reverse sample_info_lines)))
      with ("" :: reverse sample_info_lines).
    transitivity ("" :: sample_info_lines).
    + symmetry. apply Permutation_cons_append.
    + apply perm_skip. symmetry. apply reverse_Permutation.
Defined.

Lemma same_record_attribute (k : string)
      (a b : result (BossaInfo.t * list string)) :
  same_record a b -> attribute k a = attribute k b.
Proof.
  destruct a as [[r1 w1]|e1], b as [[r2 w2]|e2]; cbn [same_record attribute];
    try done. by intros ->.
Qed.

(** C8, counterexample to the claim as stated: a block with one line per
    recognized label whose unique id holds the text [Device].  The parser
    tests the labels by containment, [Device] first, so the last line is
    read as a second [Device] line: in the given order the device ends as
    [Device0001], with the lines reversed as [ATSAM4S4]. *)
Lemma C8_counterexample :
  let text1 := join newline device_id_lines in
  let text2 := join newline (reverse device_id_lines) in
  valid_block (split newline text1) /\
  split newline text1 ≡ₚ split newline text2 /\
  attribute "device" (BossaInfo.set BossaInfo.fresh text1)
  = Some (VStr "Device0001") /\
  attribute "device" (BossaInfo.set BossaInfo.fresh text2)
  = Some (VStr "ATSAM4S4") /\
  ~ same_record (BossaInfo.set BossaInfo.fresh text1)
                (BossaInfo.set BossaInfo.fresh text2).
Proof.
  cbv zeta.
  split; [split; vm_compute; reflexivity|].
  split.
  { change (split newline (join newline device_id_lines)) with device_id_lines.
    change (split newline (join newline (reverse device_id_lines)))
      with (reverse device_id_lines).
    symmetry. apply reverse_Permutation. }
  split; [vm_compute; reflexivity|].
  split; [vm_compute; reflexivity|].
  intros H. apply (same_record_attribute "device") in H.
  vm_compute in H. discriminate H.
Qed.

Lemma sample_info_parses :
  is_ok (BossaInfo.set BossaInfo.fresh (join newline sample_info_lines)) = true
  /\ is_ok (BossaInfo.set BossaInfo.fresh
              (join newline (reverse sample_info_lines))) = true.
Proof. split; vm_compute; reflexivity. Qed.

(** *** [Dfu.from_udev] *)

(** C10: [from_udev] never returns a [Dfu] object, whatever the udev
    enumeration yields and whatever the filters are.  When the enumeration
    and the serial parsing go through, it raises [FileNotFoundError] for no
    matching device, [LookupError] for more than one, and [NameError] for
    exactly one, the name [path] being unbound. *)
Theorem C10_from_udev_never_returns
        (udev_devices : bool -> bool -> result (list (gmap string string)))
        (vid pid serial ble_serial : option string) :
  (exists e, Dfu.from_udev udev_devices vid pid serial ble_serial = Raise e) /\
  forall devices found_devices,
    udev_devices (truthy vid) (truthy pid) = Ok devices ->
    Dfu.udev_loop serial ble_serial devices = Ok found_devices ->
    Dfu.from_udev udev_devices vid pid serial ble_serial =
    Raise (match length found_devices with
           | O => FileNotFoundError
           | 1%nat => NameError
           | _ => LookupError
           end).
Proof.
  unfold Dfu.from_udev. split.
  - destruct (udev_devices (truthy vid) (truthy pid)) as [devices|e]; simpl;
      [|by eexists].
    destruct (Dfu.udev_loop serial ble_serial devices) as [found|e]; simpl;
      [|by eexists].
    destruct found as [|d [|d' found]]; simpl; by eexists.
  - intros devices found -> Hloop. simpl. rewrite Hloop. simpl.
    by destruct found as [|d [|d' found]].
Qed.

Lemma C10_witness :
  Dfu.from_udev (fun _ _ => Ok [udev_keyboard]) None None None None
  = Raise NameError.
Proof.
  refine (proj2 (C10_from_udev_never_returns
                   (fun _ _ => Ok [udev_keyboard]) None None None None)
                [udev_keyboard]
                [(udev_keyboard, ("308f", "0021"),
                  rdict.mk "5335310050464D4B3530343232333033" "sam4s4b"
                           (Some 1251) None None None)] _ _).
  - reflexivity.
  - vm_compute. reflexivity.
Defined.

(** *** [Dfu.samba_bootloader] *)

Section samba_gate.

Variable textwrap_wrap : string -> nat -> list string.
Variable tf_name : string.
Variable exit_ok : list string -> bool.

Let samba := Dfu.samba_bootloader textwrap_wrap tf_name exit_ok.

(** Runs the method up to the reads of the first interface. *)
Ltac samba_start H0 :=
  unfold samba, Dfu.samba_bootloader, dfu.timeit, getitem, Dfu.serial_item,
    mbind, IO_bind, io_bind, io_lift, io_raise;
  rewrite H0; cbn beta iota.

(** A first interface without its serial dictionary stops the method at
    the subscript. *)
Lemma samba_no_serial (self : Dfu.t) (intf0 : DfuInfo.t) (w : world) :
  Dfu.interfaces self !! 0%nat = Some intf0 ->
  DfuInfo.serial intf0 = None ->
  samba self w = (Raise TypeError, w).
Proof.
  intros H0 Hs. samba_start H0. rewrite Hs. reflexivity.
Qed.

Lemma samba_wrong_chip (self : Dfu.t) (intf0 : DfuInfo.t) (sr : rdict.t)
      (w : world) :
  Dfu.interfaces self !! 0%nat = Some intf0 ->
  DfuInfo.serial intf0 = Some sr ->
  contains "sam4s" (rdict.chip sr) = false ->
  samba self w = (Raise NotImplementedError, w).
Proof.
  intros H0 Hs Hc. samba_start H0. rewrite Hs. cbn beta iota. rewrite Hc.
  by destruct (bool_decide (DfuInfo.vid intf0 = Some 12431)).
Qed.

Lemma samba_old_revision (self : Dfu.t) (intf0 : DfuInfo.t) (sr : rdict.t)
      (v : Z) (w : world) :
  Dfu.interfaces self !! 0%nat = Some intf0 ->
  DfuInfo.serial intf0 = Some sr ->
  DfuInfo.ver intf0 = Some v -> v < 1233 ->
  samba self w = (Raise NotImplementedError, w).
Proof.
  intros H0 Hs Hv Hlt. samba_start H0. rewrite Hs, Hv. cbn beta iota.
  apply Z.ltb_lt in Hlt. rewrite Hlt.
  destruct (bool_decide (DfuInfo.vid intf0 = Some 12431)); [|done].
  by destruct (contains "sam4s" (rdict.chip sr)).
Qed.

End samba_gate.

(** C1: when the first interface of the resolved device has a firmware
    revision below 1233, or a chip field in which [sam4s] does not occur,
    [samba_bootloader] raises and leaves the world as it was: nothing is
    written and no tool is run, so the boot-switch download is not sent.
    For an interface that carries its serial dictionary (and so a chip
    field) the exception is [NotImplementedError], whatever the chip in the
    first case and whatever the revision in the second. *)
Theorem C1_samba_gate
        (textwrap_wrap : string -> nat -> list string) (tf_name : string)
        (exit_ok : list string -> bool)
        (self : Dfu.t) (intf0 : DfuInfo.t) (w : world) :
  Dfu.interfaces self !! 0%nat = Some intf0 ->
  ((exists v, DfuInfo.ver intf0 = Some v /\ v < 1233) \/
   (exists sr, DfuInfo.serial intf0 = Some sr /\
               contains "sam4s" (rdict.chip sr) = false)) ->
  (exists e, Dfu.samba_bootloader textwrap_wrap tf_name exit_ok self w
             = (Raise e, w)) /\
  (is_Some (DfuInfo.serial intf0) ->
   Dfu.samba_bootloader textwrap_wrap tf_name exit_ok self w
   = (Raise NotImplementedError, w)).
Proof.
  intros H0 Hcase.
  assert (Hgate : forall sr, DfuInfo.serial intf0 = Some sr ->
            Dfu.samba_bootloader textwrap_wrap tf_name exit_ok self w
            = (Raise NotImplementedError, w)).
  { intros sr Hs. destruct Hcase as [(v & Hv & Hlt) | (sr' & Hs' & Hc)].
    - exact (samba_old_revision _ _ _ self intf0 sr v w H0 Hs Hv Hlt).
    - exact (samba_wrong_chip _ _ _ self intf0 sr' w H0 Hs' Hc). }
  split.
  - destruct (DfuInfo.serial intf0) as [sr|] eqn:Hs.
    + eexists. exact (Hgate sr eq_refl).
    + eexists. exact (samba_no_serial _ _ _ self intf0 w H0 Hs).
  - intros [sr Hs]. exact (Hgate sr Hs).
Qed.

Lemma C1_witness :
  Dfu.samba_bootloader (fun _ _ => []) "/tmp/tmpfile" (fun _ => true)
                       (Dfu.mk [old_keyboard]) world0
  = (Raise NotImplementedError, world0).
Proof.
  apply (C1_samba_gate (fun _ _ => []) "/tmp/tmpfile" (fun _ => true)
                       (Dfu.mk [old_keyboard]) old_keyboard world0).
  - reflexivity.
  - left. exists 0x0100. split; [reflexivity | lia].
  - eexists. reflexivity.
Defined.

(** *** [Dfu.__init__]: the interfaces that come through the filters *)

(** C2, evaluated: one keyboard is listed, the serial filter names another
    serial number, no interface is left, and the constructor returns an
    object with an empty interface list instead of raising
    [FileNotFoundError]. *)
Theorem C2_empty_filtered_set_is_returned :
  Dfu.__init__ (fun _ => Ok one_keyboard) None None None
               (Some "0000000000000000") None
  = Ok (Dfu.mk []).
Proof. vm_compute. reflexivity. Qed.

(** C3, evaluated: two keyboards are listed, the first with an empty path,
    the second with path [1-1]; both come through (no filter is set), their
    paths differ, and the constructor keeps both instead of raising
    [LookupError]. *)
Theorem C3_different_paths_not_reported :
  exists i1 i2,
    Dfu.__init__ (fun _ => Ok two_keyboards) None None None None None
    = Ok (Dfu.mk [i1; i2]) /\
    DfuInfo.path i1 = Some "" /\ DfuInfo.path i2 = Some "1-1" /\
    (rdict.serial <$> DfuInfo.serial i1) = Some "5335310050464D4B3530343232333033" /\
    (rdict.serial <$> DfuInfo.serial i2) = Some "5335310050464D4B3530343232333044".
Proof. do 2 eexists. repeat split; vm_compute; reflexivity. Qed.

(** *** [Bossa.cmd] *)

(** C4, evaluated: with unlock regions 0, 1, 2 the unlock option is first
    run on its own, and the second run carries the unlock option again, in
    front of the file and the other options: both names refer to one
    list. *)
Theorem C4_unlock_option_in_main_invocation :
  Bossa.cmd (fun _ => true) (Bossa.__init__ "/dev/ttyACM0" "bossac")
            (Some "bootloader.bin") None true true [0; 1; 2] [0; 1; 2]
            true true world0
  = (Ok tt,
     World {[ 0%nat := ["bossac"; "--port"; "/dev/ttyACM0"; "--unlock=0,1,2";
                        "bootloader.bin"; "--erase"; "--write"; "--boot=1";
                        "--lock=0,1,2"; "--verify"; "--reset"] ]}
           1
           [ ev_run ["bossac"; "--port"; "/dev/ttyACM0"; "--unlock=0,1,2"];
             ev_run ["bossac"; "--port"; "/dev/ttyACM0"; "--unlock=0,1,2";
                     "bootloader.bin"; "--erase"; "--write"; "--boot=1";
                     "--lock=0,1,2"; "--verify"; "--reset"] ]).
Proof. vm_compute. reflexivity. Qed.

(** *** The loop of [Dfu.__init__] in general *)

Section filter_loop_facts.

Variables serial ble_serial : option string.

Local Abbreviation surv := (survives serial ble_serial).

Lemma opt_eqb_eq (a b : option string) : opt_eqb a b = true <-> a = b.
Proof.
  destruct a as [x|], b as [y|]; simpl; try (split; congruence).
  rewrite String.eqb_eq. split; congruence.
Qed.

Lemma filter_loop_step (path_found : option string)
      (filtered : list DfuInfo.t) (intf : DfuInfo.t) (rest : list DfuInfo.t) :
  has_serial intf ->
  Dfu.filter_loop serial ble_serial path_found filtered (intf :: rest) =
  if surv intf then
    if negb (truthy path_found) then
      Dfu.filter_loop serial ble_serial (DfuInfo.path intf)
                      (filtered ++ [intf])%list rest
    else if opt_eqb (DfuInfo.path intf) path_found then
      Dfu.filter_loop serial ble_serial path_found (filtered ++ [intf])%list rest
    else Raise LookupError
  else Dfu.filter_loop serial ble_serial path_found filtered rest.
Proof.
  intros [d Hd]. cbn [Dfu.filter_loop]. unfold surv, Dfu.serial_item.
  rewrite Hd.
  destruct (truthy serial); simpl;
    [destruct (opt_eqb serial (Some (rdict.serial d))); simpl; [|done]|];
    (destruct (truthy ble_serial); simpl;
     [destruct (opt_eqb ble_serial (rdict.ble_serial d)); simpl; [|done]|]);
    reflexivity.
Qed.

(** Interfaces that come through the filters and share one path are all
    kept, in their order, and no error is raised. *)
Lemma filter_loop_same_path (p : option string) (found : list DfuInfo.t) :
  Forall has_serial found ->
  (forall i, i ∈ found -> surv i = true -> DfuInfo.path i = p) ->
  forall path_found filtered,
    (truthy path_found = true -> path_found = p) ->
    Dfu.filter_loop serial ble_serial path_found filtered found
    = Ok (filtered ++ List.filter surv found)%list.
Proof.
  induction 1 as [|intf rest Hs Hrest IH]; intros Hp pf acc Hpf.
  - simpl. by rewrite app_nil_r.
  - rewrite filter_loop_step by done. cbn [List.filter].
    destruct (surv intf) eqn:Hsv.
    + assert (DfuInfo.path intf = p) as Hi by (apply Hp; [left|done]).
      destruct (truthy pf) eqn:Htr; simpl.
      * rewrite (Hpf eq_refl), Hi.
        rewrite (proj2 (opt_eqb_eq p p) eq_refl).
        rewrite IH; [by rewrite <- app_assoc| |done].
        intros i Hin. apply Hp. by right.
      * rewrite IH; [by rewrite <- app_assoc| |by rewrite Hi].
        intros i Hin. apply Hp. by right.
    + apply IH; [|done]. intros i Hin. apply Hp. by right.
Qed.

(** Once a non-empty path has been recorded, a later interface that comes
    through with another path raises the ambiguity error. *)
Lemma filter_loop_other_path (found : list DfuInfo.t) :
  Forall has_serial found ->
  forall path_found filtered,
    truthy path_found = true ->
    (exists i, i ∈ found /\ surv i = true /\ DfuInfo.path i <> path_found) ->
    Dfu.filter_loop serial ble_serial path_found filtered found
    = Raise LookupError.
Proof.
  induction 1 as [|intf rest Hs Hrest IH]; intros pf acc Htr (i & Hin & Hsv & Hne).
  - by apply elem_of_nil in Hin.
  - rewrite filter_loop_step by done. rewrite Htr. simpl.
    destruct (surv intf) eqn:Hsi.
    + destruct (opt_eqb (DfuInfo.path intf) pf) eqn:Heq; [|done].
      apply opt_eqb_eq in Heq. apply IH; [done|].
      apply elem_of_cons in Hin as [->|Hin]; [done|]. eauto.
    + apply IH; [done|].
      apply elem_of_cons in Hin as [->|Hin]; [congruence|]. eauto.
Qed.

(** When every interface that comes through has a non-empty path, two of
    them with different paths raise the ambiguity error. *)
Lemma filter_loop_ambiguous (found : list DfuInfo.t) :
  Forall has_serial found ->
  (forall i, i ∈ found -> surv i = true -> truthy (DfuInfo.path i) = true) ->
  forall path_found filtered,
    truthy path_found = false ->
    (exists i j, i ∈ found /\ j ∈ found /\ surv i = true /\
                 surv j = true /\ DfuInfo.path i <> DfuInfo.path j) ->
    Dfu.filter_loop serial ble_serial path_found filtered found
    = Raise LookupError.
Proof.
  induction 1 as [|intf rest Hs Hrest IH];
    intros Htruthy pf acc Hpf (i & j & Hi & Hj & Hsi & Hsj & Hne).
  - by apply elem_of_nil in Hi.
  - rewrite filter_loop_step by done. rewrite Hpf. simpl.
    destruct (surv intf) eqn:Hsv.
    + apply filter_loop_other_path; [done|apply Htruthy; [left|done]|].
      destruct (decide (DfuInfo.path i = DfuInfo.path intf)) as [Heq|Hdiff].
      * exists j. apply elem_of_cons in Hj as [->|Hj]; [congruence|].
        split; [done|]. split; [done|]. congruence.
      * exists i. apply elem_of_cons in Hi as [->|Hi]; [congruence|]. done.
    + apply IH; [|done|].
      * intros k Hk. apply Htruthy. by right.
      * apply elem_of_cons in Hi as [->|Hi]; [congruence|].
        apply elem_of_cons in Hj as [->|Hj]; [congruence|].
        exists i, j. done.
Qed.

(** With no interface coming through, the loop ends with what it had: from
    the start of [Dfu.__init__], the empty list. *)
Lemma filter_loop_no_survivor (found : list DfuInfo.t) :
  Forall has_serial found ->
  (forall i, i ∈ found -> surv i = false) ->
  Dfu.filter_loop serial ble_serial None [] found = Ok [].
Proof.
  intros Hs Hnone.
  rewrite (filter_loop_same_path None found Hs); [|by intros i Hi; rewrite Hnone|done].
  simpl. induction found as [|intf rest IH]; [done|].
  cbn [List.filter]. rewrite Hnone by left.
  apply IH; [by inversion Hs|]. intros i Hi. apply Hnone. by right.
Qed.

End filter_loop_facts.

(** The sibling constructor does raise when the serial filter leaves
    nothing. *)
Lemma from_udev_filter_leaves_none :
  Dfu.from_udev (fun _ _ => Ok [udev_keyboard]) None None
                (Some "0000000000000000") None
  = Raise FileNotFoundError.
Proof. vm_compute. reflexivity. Qed.

(** *** [Bossa.cmd] in general *)

Section cmd_facts.

Variable exit_ok : list string -> bool.

Lemma list_append_at (r : nat) (x : string) (xs : list string)
      (o : gmap nat (list string)) (n : nat) (ev : list event) :
  list_append r x (World (<[r := xs]> o) n ev)
  = (Ok tt, World (<[r := (xs ++ [x])%list]> o) n ev).
Proof.
  unfold list_append. cbn [objs next_ref events].
  by rewrite lookup_insert_eq, insert_insert_eq.
Qed.

Lemma when_append_at (b : bool) (r : nat) (x : string) (xs : list string)
      (o : gmap nat (list string)) (n : nat) (ev : list event) :
  when b (list_append r x) (World (<[r := xs]> o) n ev)
  = (Ok tt, World (<[r := (xs ++ if b then [x] else [])%list]> o) n ev).
Proof.
  destruct b; simpl; [apply list_append_at|].
  by rewrite app_nil_r.
Qed.

Lemma list_read_at (r : nat) (xs : list string)
      (o : gmap nat (list string)) (n : nat) (ev : list event) :
  list_read r (World (<[r := xs]> o) n ev)
  = (Ok xs, World (<[r := xs]> o) n ev).
Proof. unfold list_read. cbn [objs]. by rewrite lookup_insert_eq. Qed.

Lemma subprocess_run_at (argv : list string)
      (o : gmap nat (list string)) (n : nat) (ev : list event) :
  subprocess_run exit_ok argv (World o n ev)
  = (if exit_ok argv then Ok tt else Raise CalledProcessError,
     World o n (ev ++ [ev_run argv])%list).
Proof.
  unfold subprocess_run, mbind, IO_bind, io_bind, io_emit, mret, IO_ret,
    io_ret, io_raise.
  cbn [objs next_ref events]. by destruct (exit_ok argv).
Qed.

Lemma file_append_at (file : option string) (r : nat) (xs : list string)
      (o : gmap nat (list string)) (n : nat) (ev : list event) :
  match file with
  | Some f => when (truthy file) (list_append r f)
  | None => io_ret tt
  end (World (<[r := xs]> o) n ev)
  = (Ok tt,
     World (<[r := (xs ++ match file with
                          | Some f => if truthy file then [f] else []
                          | None => []
                          end)%list]> o) n ev).
Proof.
  destruct file as [f|]; [apply when_append_at|].
  unfold io_ret. by rewrite app_nil_r.
Qed.

(** With unlock regions given and the unlock run succeeding, the tool is
    run twice; the second argument vector is the first one, unlock option
    included, followed by the options of the main run. *)
Lemma cmd_unlock_runs (self : Bossa.t) (file : option string)
      (erase : option bool) (write boot_flash : bool)
      (unlock_regions lock_regions : list Z) (verify reset : bool) (w : world) :
  let unlock_argv :=
    [Bossa.bossa_cmd self; "--port"; Bossa.port self;
     "--unlock=" +:+ Bossa.regions_arg unlock_regions] in
  unlock_regions <> [] ->
  exit_ok unlock_argv = true ->
  events (Bossa.cmd exit_ok self file erase write boot_flash unlock_regions
                    lock_regions verify reset w).2
  = (events w ++
     [ ev_run unlock_argv;
       ev_run (unlock_argv ++ main_options file erase write boot_flash
                                           lock_regions verify reset) ])%list.
Proof.
  intros unlock_argv Hne Hok. destruct w as [o n ev].
  unfold Bossa.cmd, bossa.timeit, dfu.timeit.
  unfold mbind, IO_bind, io_bind, mret, IO_ret.
  unfold new_list at 1. cbn [objs next_ref events].
  destruct unlock_regions as [|u0 us]; [done|]. cbn [length Nat.ltb Nat.leb].
  rewrite list_append_at, list_read_at.
  fold unlock_argv. change ([Bossa.bossa_cmd self; "--port"; Bossa.port self]
          ++ ["--unlock=" +:+ Bossa.regions_arg (u0 :: us)])%list
    with unlock_argv.
  rewrite subprocess_run_at, Hok.
  rewrite file_append_at.
  rewrite !when_append_at.
  assert (Hboot : forall xs o' n' ev',
             (if boot_flash then list_append n "--boot=1"
              else list_append n "--boot=0") (World (<[n := xs]> o') n' ev')
             = (Ok tt, World (<[n := (xs ++ [if boot_flash then "--boot=1"
                                             else "--boot=0"])%list]> o') n' ev')).
  { intros. destruct boot_flash; apply list_append_at. }
  rewrite Hboot, !when_append_at, list_read_at, subprocess_run_at.
  assert (Hsnd : forall (r : result unit) (w' : world), (r, w').2 = w') by done.
  destruct (exit_ok _); rewrite Hsnd; cbn [events];
    rewrite <- !app_assoc; reflexivity.
Qed.

End cmd_facts.

(* ===================================================================== *)
(** ** Further properties of the embedded code *)
(* ===================================================================== *)

(** *** Splitting at a one-character separator *)

Lemma append_nil_l (s : string) : "" +:+ s = s.
Proof. reflexivity. Qed.

Lemma append_assoc (a b c : string) : (a +:+ b) +:+ c = a +:+ (b +:+ c).
Proof.
  induction a as [|x a IH]; [done|]. rewrite !append_cons. by f_equal.
Qed.

Lemma split_go_nonempty (sep : string) (m : option nat) (k : nat) (s : string) :
  split_go sep m k s <> [].
Proof.
  revert m k. induction s as [|c s IH]; intros m k; [done|].
  cbn [split_go]. destruct k; [|apply IH].
  destruct (may_split m && startswith sep (String c s)); [done|].
  specialize (IH m 0%nat). by destruct (split_go sep m 0 s).
Qed.

(** The pieces of a split are made of characters of the text. *)
Lemma split_go_chars (f : ascii -> bool) (sep : string) (m : option nat)
      (k : nat) (s : string) :
  all_chars f s = true ->
  Forall (fun piece => all_chars f piece = true) (split_go sep m k s).
Proof.
  revert m k. induction s as [|c s IH]; intros m k.
  - intros _. by repeat constructor.
  - intros [Hc Hs]%andb_prop. cbn [split_go]. destruct k as [|k]; [|by apply IH].
    destruct (may_split m && startswith sep (String c s)).
    + constructor; [done|]. by apply IH.
    + specialize (IH m 0%nat Hs). destruct (split_go sep m 0 s); simpl.
      * repeat constructor. simpl. by rewrite Hc.
      * inversion IH; subst. constructor; [|done]. simpl. by rewrite Hc.
Qed.

Lemma split_sep_cons (c : ascii) (s : string) :
  split (String c "") (String c s) = "" :: split (String c "") s.
Proof.
  unfold split. cbn [split_go may_split startswith andb]. 
  by rewrite Ascii.eqb_refl.
Qed.

(** A text up to the first separator is the first piece. *)
Lemma split_first (c : ascii) (d r : string) :
  all_chars (differs c) d = true ->
  split (String c "") (d +:+ String c r) = d :: split (String c "") r.
Proof.
  intros Hd. unfold split at 1. rewrite split_go_app_differs by done.
  fold (split (String c "") (String c r)). rewrite split_sep_cons.
  by rewrite prepend_head_cons, append_empty_r.
Qed.

(** No piece of a split contains the separator. *)
Lemma split_pieces_differ (c : ascii) (s : string) :
  Forall (fun piece => all_chars (differs c) piece = true)
         (split (String c "") s).
Proof.
  induction s as [|x s IH]; [by repeat constructor|].
  unfold split in *. cbn [split_go may_split startswith andb].
  destruct (Ascii.eqb c x) eqn:E; simpl.
  - by constructor.
  - destruct (split_go (String c "") None 0 s) as [|h t]; simpl.
    + repeat constructor. simpl. unfold differs. by rewrite E.
    + inversion IH; subst. constructor; [|done].
      simpl. unfold differs at 1. by rewrite E.
Qed.

Lemma serial_char_space (s : string) :
  all_chars serial_char s = true -> all_chars (differs " ") s = true.
Proof.
  apply all_chars_impl. intros c. unfold serial_char.
  by intros [? _]%andb_prop.
Qed.

Lemma serial_char_colon (s : string) :
  all_chars serial_char s = true -> all_chars (differs ":") s = true.
Proof.
  apply all_chars_impl. intros c. unfold serial_char.
  by intros [_ ?]%andb_prop.
Qed.

(** *** [parse_serial]: what it accepts and what it returns *)

Lemma mcu_serial_split (s c h : string) :
  all_chars serial_char s = true -> all_chars serial_char c = true ->
  all_chars serial_char h = true ->
  split " " (mcu_serial s c h) = [s; "-"; c +:+ ":" +:+ h]
  /\ split ":" (c +:+ ":" +:+ h) = [c; h].
Proof.
  intros Hs Hc Hh. unfold mcu_serial. split.
  - change (s +:+ " - " +:+ c +:+ ":" +:+ h)
      with (s +:+ String " " ("-" +:+ String " " (c +:+ ":" +:+ h))).
    rewrite split_first by by apply serial_char_space.
    rewrite split_first by reflexivity.
    unfold split. rewrite split_go_differs; [done|].
    rewrite !all_chars_app, (serial_char_space c Hc), (serial_char_space h Hh).
    reflexivity.
  - change (c +:+ ":" +:+ h) with (c +:+ String ":" h).
    rewrite split_first by by apply serial_char_colon.
    unfold split. by rewrite split_go_differs by by apply serial_char_colon.
Qed.

(** X1: a serial string [serial - chip:hexrev] whose three parts hold no
    space and no colon, with [hexrev] a hexadecimal literal of value [n],
    parses to exactly these parts, revision [n], and no BLE fields. *)
Theorem X1_parse_serial_mcu (s c h : string) (n : Z) :
  all_chars serial_char s = true -> all_chars serial_char c = true ->
  all_chars serial_char h = true -> int 16 h = Ok n ->
  DfuInfo.parse_serial (mcu_serial s c h)
  = Ok (rdict.mk s c (Some n) None None None).
Proof.
  intros Hs Hc Hh Hn. destruct (mcu_serial_split s c h Hs Hc Hh) as [E1 E2].
  unfold DfuInfo.parse_serial. rewrite E1. cbn [getitem lookup list_lookup].
  simpl. rewrite E2. simpl. rewrite Hn. reflexivity.
Qed.

Lemma X1_witness :
  DfuInfo.parse_serial (mcu_serial "5335310050464D4B3530343232333033" "sam4s4b" "04E3")
  = Ok (rdict.mk "5335310050464D4B3530343232333033" "sam4s4b" (Some 1251)
                 None None None).
Proof.
  apply (X1_parse_serial_mcu "5335310050464D4B3530343232333033" "sam4s4b"
                             "04E3" 1251); vm_compute; reflexivity.
Defined.

(** X2: a serial string [serial - chip] without a revision parses to the
    serial number and the chip, with [mcu_revision] and the BLE fields
    [None]. *)
Theorem X2_parse_serial_chip_only (s c : string) :
  all_chars serial_char s = true -> all_chars serial_char c = true ->
  DfuInfo.parse_serial (s +:+ " - " +:+ c)
  = Ok (rdict.mk s c None None None None).
Proof.
  intros Hs Hc.
  assert (E1 : split " " (s +:+ " - " +:+ c) = [s; "-"; c]).
  { change (s +:+ " - " +:+ c) with (s +:+ String " " ("-" +:+ String " " c)).
    rewrite split_first by by apply serial_char_space.
    rewrite split_first by reflexivity.
    unfold split. by rewrite (split_go_differs " " "" None c)
      by by apply serial_char_space. }
  assert (E2 : split ":" c = [c]).
  { unfold split. by rewrite split_go_differs by by apply serial_char_colon. }
  unfold DfuInfo.parse_serial. rewrite E1.
  cbn [getitem lookup list_lookup]. simpl. rewrite E2. reflexivity.
Qed.

Lemma X2_witness :
  DfuInfo.parse_serial ("5335310050464D4B3530343232333033" +:+ " - " +:+ "sam4s4b")
  = Ok (rdict.mk "5335310050464D4B3530343232333033" "sam4s4b"
                 None None None None).
Proof.
  apply (X2_parse_serial_chip_only "5335310050464D4B3530343232333033" "sam4s4b");
    vm_compute; reflexivity.
Defined.

Lemma radio_serial_split (s c h bs bc bh : string) :
  all_chars serial_char s = true -> all_chars serial_char c = true ->
  all_chars serial_char h = true -> all_chars serial_char bs = true ->
  all_chars serial_char bc = true -> all_chars serial_char bh = true ->
  split " " (radio_serial s c h bs bc bh)
  = [s; "-"; c +:+ ":" +:+ h; "|"; bs; "-"; bc +:+ ":" +:+ bh].
Proof.
  intros Hs Hc Hh Hbs Hbc Hbh.
  set (T := c +:+ ":" +:+ h). set (BT := bc +:+ ":" +:+ bh).
  assert (HT : all_chars (differs " ") T = true).
  { unfold T. rewrite !all_chars_app, (serial_char_space c Hc),
      (serial_char_space h Hh). reflexivity. }
  assert (HBT : all_chars (differs " ") BT = true).
  { unfold BT. rewrite !all_chars_app, (serial_char_space bc Hbc),
      (serial_char_space bh Hbh). reflexivity. }
  assert (radio_serial s c h bs bc bh
          = s +:+ String " " ("-" +:+ String " " (T +:+ String " "
              ("|" +:+ String " " (bs +:+ String " "
                 ("-" +:+ String " " BT)))))) as ->.
  { unfold radio_serial, mcu_serial, T, BT. rewrite !append_assoc.
    reflexivity. }
  rewrite split_first by by apply serial_char_space.
  rewrite split_first by reflexivity.
  rewrite split_first by exact HT.
  rewrite split_first by reflexivity.
  rewrite split_first by by apply serial_char_space.
  rewrite split_first by reflexivity.
  unfold split. by rewrite split_go_differs by exact HBT.
Qed.

(** X3: a serial string with a radio part,
    [serial - chip:hexrev | ble_serial - ble_chip:ble_hexrev], parses to
    exactly its six parts, the two revisions read as hexadecimal. *)
Theorem X3_parse_serial_radio (s c h bs bc bh : string) (n bn : Z) :
  all_chars serial_char s = true -> all_chars serial_char c = true ->
  all_chars serial_char h = true -> all_chars serial_char bs = true ->
  all_chars serial_char bc = true -> all_chars serial_char bh = true ->
  int 16 h = Ok n -> int 16 bh = Ok bn ->
  DfuInfo.parse_serial (radio_serial s c h bs bc bh)
  = Ok (rdict.mk s c (Some n) (Some bs) (Some bc) (Some bn)).
Proof.
  intros Hs Hc Hh Hbs Hbc Hbh Hn Hbn. unfold DfuInfo.parse_serial.
  rewrite radio_serial_split by done.
  cbn [getitem lookup list_lookup]. simpl.
  rewrite (proj2 (mcu_serial_split s c h Hs Hc Hh)).
  rewrite (proj2 (mcu_serial_split bs bc bh Hbs Hbc Hbh)).
  simpl. rewrite Hn. simpl. rewrite Hbn. reflexivity.
Qed.

Lemma X3_witness :
  DfuInfo.parse_serial
    (radio_serial "5335310050464D4B3530343232333033" "sam4s4b" "04E3"
                  "697E97E3A186C5DF" "nRF52810" "0015")
  = Ok (rdict.mk "5335310050464D4B3530343232333033" "sam4s4b" (Some 1251)
                 (Some "697E97E3A186C5DF") (Some "nRF52810") (Some 21)).
Proof.
  apply (X3_parse_serial_radio "5335310050464D4B3530343232333033" "sam4s4b"
           "04E3" "697E97E3A186C5DF" "nRF52810" "0015" 1251 21);
    vm_compute; reflexivity.
Defined.

Lemma getitem_Raise {A} (xs : list A) (i : nat) (e : exn) :
  getitem xs i = Raise e -> e = IndexError.
Proof. unfold getitem. destruct (xs !! i); congruence. Qed.

Lemma int_Raise (base : Z) (s : string) (e : exn) :
  int base s = Raise e -> e = ValueError.
Proof. unfold int. destruct (int_opt base s); congruence. Qed.

(** The only exceptions of [parse_serial]. *)
Lemma parse_serial_exn (raw : string) (e : exn) :
  DfuInfo.parse_serial raw = Raise e -> e = IndexError \/ e = ValueError.
Proof.
  unfold DfuInfo.parse_serial. intros H.
  repeat match type of H with
         | context [getitem ?l ?i] =>
             let E := fresh "E" in
             destruct (getitem l i) eqn:E;
             [|apply getitem_Raise in E; subst]; simpl in H
         | context [int ?b ?x] =>
             let E := fresh "E" in
             destruct (int b x) eqn:E;
             [|apply int_Raise in E; subst]; simpl in H
         | context [if ?b then _ else _] => destruct b; simpl in H
         end;
    try discriminate H; injection H as <-; auto.
Qed.

(** X4: a raw serial with fewer than three space-separated pieces (the
    empty string among them) makes [parse_serial] raise [IndexError]; one
    with exactly six pieces is never accepted, since the radio part is read
    from piece 6. *)
Theorem X4_parse_serial_rejects (raw : string) :
  ((length (split " " raw) < 3)%nat ->
   DfuInfo.parse_serial raw = Raise IndexError) /\
  (length (split " " raw) = 6%nat ->
   exists e, DfuInfo.parse_serial raw = Raise e /\
             (e = IndexError \/ e = ValueError)).
Proof.
  split.
  - intros Hlen. unfold DfuInfo.parse_serial, getitem.
    rewrite (lookup_ge_None_2 (split " " raw) 2) by lia. reflexivity.
  - intros Hlen. destruct (DfuInfo.parse_serial raw) as [r|e] eqn:H.
    + destruct (ble_fields_long raw r H) as (tok6 & _ & _ & H6 & _); [lia|].
      apply lookup_lt_Some in H6. lia.
    + exists e. split; [done|]. by eapply parse_serial_exn.
Qed.

Lemma X4_witness :
  DfuInfo.parse_serial "" = Raise IndexError /\
  exists e, DfuInfo.parse_serial "5335 - sam4s4b:04E3 | 697E -" = Raise e /\
            (e = IndexError \/ e = ValueError).
Proof.
  split.
  - apply (proj1 (X4_parse_serial_rejects "")). vm_compute. lia.
  - apply (proj2 (X4_parse_serial_rejects "5335 - sam4s4b:04E3 | 697E -")).
    vm_compute. reflexivity.
Defined.

(** X5: in every record that [parse_serial] returns, the serial number and
    the chip hold no space, and the chip holds no colon when a revision was
    read; so the [serial.split(' - ')[0]] of [samba_bootloader] gives the
    serial number itself. *)
Theorem X5_parsed_serial_has_no_space (raw : string) (r : rdict.t) :
  DfuInfo.parse_serial raw = Ok r ->
  contains " " (rdict.serial r) = false /\
  contains " " (rdict.chip r) = false /\
  (is_Some (rdict.mcu_revision r) -> contains ":" (rdict.chip r) = false) /\
  getitem (split " - " (rdict.serial r)) 0 = Ok (rdict.serial r).
Proof.
  intros H. unfold DfuInfo.parse_serial in H.
  bind_inv H as tok2 Htok2. bind_inv H as cm Hcm. destruct cm as [c m].
  bind_inv H as ble Hble. destruct ble as [[bs bc] br].
  bind_inv H as s0 Hs0. injection H as <-. simpl.
  apply getitem_Ok in Htok2, Hs0.
  pose proof (split_pieces_differ " " raw) as Hpieces.
  pose proof (proj1 (Forall_lookup _ _) Hpieces _ _ Hs0) as Hs0c.
  pose proof (proj1 (Forall_lookup _ _) Hpieces _ _ Htok2) as Htok2c.
  simpl in Hs0c, Htok2c.
  assert (Hchip : all_chars (differs " ") c = true /\
                  (is_Some m -> all_chars (differs ":") c = true)).
  { destruct (1 <? length (split ":" tok2))%nat.
    - bind_inv Hcm as c0 Hc0. bind_inv Hcm as r1 Hr1. bind_inv Hcm as v Hv.
      injection Hcm as <- <-. apply getitem_Ok in Hc0. split.
      + pose proof (split_go_chars (differs " ") ":" None 0 tok2 Htok2c) as Hsub.
        exact (proj1 (Forall_lookup _ _) Hsub _ _ Hc0).
      + intros _.
        exact (proj1 (Forall_lookup _ _) (split_pieces_differ ":" tok2) _ _ Hc0).
    - injection Hcm as <- <-. split; [done|]. by intros [? ?]. }
  destruct Hchip as [Hc1 Hc2].
  split; [by apply contains_differs|].
  split; [by apply contains_differs|].
  split; [intros Hm; by apply contains_differs, Hc2|].
  unfold split. by rewrite split_go_differs.
Qed.

Lemma X5_witness :
  let r := rdict.mk "5335310050464D4B3530343232333033" "sam4s4b" (Some 1251)
                    None None None in
  contains " " (rdict.serial r) = false /\
  contains " " (rdict.chip r) = false /\
  (is_Some (rdict.mcu_revision r) -> contains ":" (rdict.chip r) = false) /\
  getitem (split " - " (rdict.serial r)) 0 = Ok (rdict.serial r).
Proof.
  apply (X5_parsed_serial_has_no_space
           "5335310050464D4B3530343232333033 - sam4s4b:04E3").
  vm_compute. reflexivity.
Defined.

(** *** [DfuInfo.set] *)

Lemma set_field_ids (self self' : DfuInfo.t) (field : string) :
  DfuInfo.set_field self field = Ok self' ->
  DfuInfo.vid self' = DfuInfo.vid self /\ DfuInfo.pid self' = DfuInfo.pid self.
Proof.
  destruct self. unfold DfuInfo.set_field. intros H.
  repeat match type of H with
         | context [if contains ?a ?b then _ else _] => destruct (contains a b)
         | (_ ≫= _) = Ok _ =>
             let x := fresh "x" in
             let Hx := fresh "Hx" in
             bind_inv H as x Hx; cbv beta in H
         end;
    injection H as <-; auto.
Qed.

Lemma set_fields_ids (fields : list string) (self self' : DfuInfo.t) :
  DfuInfo.set_fields self fields = Ok self' ->
  DfuInfo.vid self' = DfuInfo.vid self /\ DfuInfo.pid self' = DfuInfo.pid self.
Proof.
  revert self. induction fields as [|f fields IH]; intros self H.
  - by injection H as <-.
  - cbn [DfuInfo.set_fields] in H. bind_inv H as s1 Hs1.
    destruct (set_field_ids _ _ _ Hs1) as [<- <-]. by apply IH.
Qed.

(** X6: every [DfuInfo] object that is constructed has its [vid] and [pid]
    set, to the two hexadecimal numbers between the brackets of the first
    comma-separated field; no later field changes them. *)
Theorem X6_DfuInfo_ids (line : string) (i : DfuInfo.t) :
  DfuInfo.__init__ line = Ok i ->
  exists f0 a b v p,
    getitem (split ", " line) 0 = Ok f0 /\
    getitem (split "[" f0) 1 = Ok a /\
    getitem (split "]" a) 0 = Ok b /\
    mapM (int 16) (split ":" b) = Ok [v; p] /\
    DfuInfo.vid i = Some v /\ DfuInfo.pid i = Some p.
Proof.
  unfold DfuInfo.__init__, DfuInfo.set. intros H.
  bind_inv H as f0 Hf0. bind_inv H as a Ha. bind_inv H as b Hb.
  bind_inv H as ids Hids.
  destruct ids as [|v [|p [|? ?]]]; try discriminate H.
  cbn [DfuInfo.empty] in H. apply set_fields_ids in H as [Hv Hp].
  exists f0, a, b, v, p. auto 10.
Qed.

Lemma X6_witness :
  exists i f0 a b v p,
    DfuInfo.__init__ (found_dfu "1-2.3" "0" "Flash"
                        "5335310050464D4B3530343232333033 - sam4s4b:04E3") = Ok i /\
    getitem (split ", " (found_dfu "1-2.3" "0" "Flash"
               "5335310050464D4B3530343232333033 - sam4s4b:04E3")) 0 = Ok f0 /\
    getitem (split "[" f0) 1 = Ok a /\
    getitem (split "]" a) 0 = Ok b /\
    mapM (int 16) (split ":" b) = Ok [v; p] /\
    DfuInfo.vid i = Some v /\ DfuInfo.pid i = Some p.
Proof.
  destruct (DfuInfo.__init__ (found_dfu "1-2.3" "0" "Flash"
              "5335310050464D4B3530343232333033 - sam4s4b:04E3")) as [i|e] eqn:E;
    [|vm_compute in E; discriminate E].
  destruct (X6_DfuInfo_ids _ i E) as (f0 & a & b & v & p & H).
  exists i, f0, a, b, v, p. split; [reflexivity | exact H].
Defined.

(** X7: a line without an opening bracket makes the constructor of
    [DfuInfo] raise [IndexError]. *)
Theorem X7_DfuInfo_no_bracket (line : string) :
  contains "[" line = false -> DfuInfo.__init__ line = Raise IndexError.
Proof.
  intros H%contains_one_false. unfold DfuInfo.__init__, DfuInfo.set, split.
  pose proof (split_go_chars (differs "[") ", " None 0 line H) as Hpieces.
  pose proof (split_go_nonempty ", " None 0 line) as Hne.
  destruct (split_go ", " None 0 line) as [|f0 rest]; [done|].
  inversion Hpieces; subst. cbn [getitem lookup list_lookup]. simpl.
  by rewrite split_go_differs.
Qed.

Lemma X7_witness : DfuInfo.__init__ "Found DFU: 308f:0021 ver=04e3" = Raise IndexError.
Proof. apply X7_DfuInfo_no_bracket. vm_compute. reflexivity. Defined.

(** *** [Dfu.__init__]: what a returned object holds *)

Lemma gather_none (lines : list string) :
  Forall (fun line => contains "Found DFU:" line = false) lines ->
  Dfu.gather lines = Ok [].
Proof.
  induction 1 as [|line lines Hl _ IH]; [done|].
  cbn [Dfu.gather]. by rewrite Hl.
Qed.

(** X8: when no line of the tool's output holds [Found DFU:] (an empty
    output among them), the constructor raises [FileNotFoundError],
    whatever the filters are. *)
Theorem X8_Dfu_init_nothing_listed
        (dfu_util_list : list string -> result string)
        (path vid pid serial ble_serial : option string) (stdout : string) :
  (forall argv, dfu_util_list argv = Ok stdout) ->
  Forall (fun line => contains "Found DFU:" line = false) (split newline stdout) ->
  Dfu.__init__ dfu_util_list path vid pid serial ble_serial
  = Raise FileNotFoundError.
Proof.
  intros Hrun Hlines. unfold Dfu.__init__. rewrite Hrun. simpl.
  by rewrite gather_none.
Qed.

Lemma X8_witness :
  Dfu.__init__ (fun _ => Ok "") None None None (Some "5335") None
  = Raise FileNotFoundError.
Proof.
  apply (X8_Dfu_init_nothing_listed (fun _ => Ok "") None None None
                                    (Some "5335") None "").
  - reflexivity.
  - vm_compute. repeat constructor.
Defined.

Section filter_loop_result.

Variables serial ble_serial : option string.

Local Abbreviation surv := (survives serial ble_serial).
Local Abbreviation loop := (Dfu.filter_loop serial ble_serial).

(** One turn of the loop, for any interface: either the turn raises, or the
    interface is skipped, or it is appended. *)
Lemma filter_loop_turn (pf : option string) (acc : list DfuInfo.t)
      (intf : DfuInfo.t) (rest : list DfuInfo.t) :
  (exists e, loop pf acc (intf :: rest) = Raise e) \/
  (surv intf = false /\ loop pf acc (intf :: rest) = loop pf acc rest) \/
  (surv intf = true /\ truthy pf = false /\
   loop pf acc (intf :: rest) = loop (DfuInfo.path intf) (acc ++ [intf])%list rest) \/
  (surv intf = true /\ truthy pf = true /\ DfuInfo.path intf = pf /\
   loop pf acc (intf :: rest) = loop pf (acc ++ [intf])%list rest).
Proof.
  cbn [Dfu.filter_loop]. unfold survives, Dfu.serial_item.
  destruct (DfuInfo.serial intf) as [d|];
    destruct (truthy serial); simpl;
    try (destruct (opt_eqb serial (Some (rdict.serial d))); simpl);
    destruct (truthy ble_serial); simpl;
    try (destruct (opt_eqb ble_serial (rdict.ble_serial d)); simpl);
    try (by left; eexists);
    try (by right; left);
    (destruct (truthy pf) eqn:Hpf; simpl; [|by right; right; left]);
    (destruct (opt_eqb (DfuInfo.path intf) pf) eqn:Heq; simpl;
     [apply opt_eqb_eq in Heq; by right; right; right | by left; eexists]).
Qed.

(** When the loop ends without an exception it has kept exactly the
    interfaces that come through the filters, in their order. *)
Lemma filter_loop_Ok (found : list DfuInfo.t) :
  forall pf acc kept,
    loop pf acc found = Ok kept ->
    kept = (acc ++ List.filter surv found)%list.
Proof.
  induction found as [|intf rest IH]; intros pf acc kept H.
  - injection H as <-. simpl. by rewrite app_nil_r.
  - cbn [List.filter].
    destruct (filter_loop_turn pf acc intf rest)
      as [[e He] | [[Hs He] | [(Hs & _ & He) | (Hs & _ & _ & He)]]];
      rewrite He in H; rewrite ?Hs; [done|by eapply IH|..];
      apply IH in H; by rewrite <- app_assoc in H.
Qed.

Lemma filter_loop_paths (found : list DfuInfo.t) :
  forall pf acc kept,
    paths_agree pf acc ->
    loop pf acc found = Ok kept ->
    exists pf', paths_agree pf' kept.
Proof.
  induction found as [|intf rest IH]; intros pf acc kept Hinv H.
  - injection H as <-. eauto.
  - destruct (filter_loop_turn pf acc intf rest)
      as [[e He] | [[Hs He] | [(Hs & Hpf & He) | (Hs & Hpf & Hp & He)]]];
      rewrite He in H; [done|by eapply IH|..]; eapply IH; try exact H.
    + intros i [Hi | ->%list_elem_of_singleton]%elem_of_app Ht; [|done].
      destruct (Hinv i Hi Ht) as [Hc _]. congruence.
    + intros i [Hi | ->%list_elem_of_singleton]%elem_of_app Ht; [by apply Hinv|].
      done.
Qed.

End filter_loop_result.

Lemma Dfu_init_Ok (dfu_util_list : list string -> result string)
      (path vid pid serial ble_serial : option string) (d : Dfu.t) :
  Dfu.__init__ dfu_util_list path vid pid serial ble_serial = Ok d ->
  exists argv stdout found,
    dfu_util_list argv = Ok stdout /\
    Dfu.gather (split newline stdout) = Ok found /\
    found <> [] /\
    Dfu.filter_loop serial ble_serial None [] found = Ok (Dfu.interfaces d).
Proof.
  unfold Dfu.__init__. intros H.
  bind_inv H as stdout Hrun. bind_inv H as found Hfound.
  destruct found as [|i0 found]; [discriminate H|].
  cbn [length Nat.eqb] in H. bind_inv H as kept Hkept. injection H as <-.
  eexists _, stdout, (i0 :: found). done.
Qed.

(** X9: an object that [Dfu.__init__] returns holds exactly the listed
    interfaces that come through the [serial] and [ble_serial] filters, in
    the order of the listing; the listing itself was not empty. *)
Theorem X9_Dfu_init_keeps_survivors
        (dfu_util_list : list string -> result string)
        (path vid pid serial ble_serial : option string) (d : Dfu.t) :
  Dfu.__init__ dfu_util_list path vid pid serial ble_serial = Ok d ->
  exists argv stdout found,
    dfu_util_list argv = Ok stdout /\
    Dfu.gather (split newline stdout) = Ok found /\
    found <> [] /\
    Dfu.interfaces d = List.filter (survives serial ble_serial) found.
Proof.
  intros H. destruct (Dfu_init_Ok _ _ _ _ _ _ _ H)
    as (argv & stdout & found & Hrun & Hg & Hne & Hloop).
  exists argv, stdout, found. repeat split; try done.
  by apply filter_loop_Ok in Hloop.
Qed.

Lemma keyboard_two_alts_init :
  exists i0 i1,
    Dfu.__init__ (fun _ => Ok keyboard_two_alts) None None None
                 (Some "5335310050464D4B3530343232333033") None
    = Ok (Dfu.mk [i0; i1]) /\
    DfuInfo.alt i0 = Some 0 /\ DfuInfo.alt i1 = Some 1.
Proof. do 2 eexists. repeat split; vm_compute; reflexivity. Qed.

Lemma X9_witness :
  exists d argv stdout found,
    Dfu.__init__ (fun _ => Ok keyboard_two_alts) None None None
                 (Some "5335310050464D4B3530343232333033") None = Ok d /\
    (fun _ : list string => Ok keyboard_two_alts) argv = Ok stdout /\
    Dfu.gather (split newline stdout) = Ok found /\
    found <> [] /\
    Dfu.interfaces d
    = List.filter (survives (Some "5335310050464D4B3530343232333033") None) found.
Proof.
  destruct keyboard_two_alts_init as (i0 & i1 & H & _).
  destruct (X9_Dfu_init_keeps_survivors _ _ _ _ _ _ _ H)
    as (argv & stdout & found & Hrest).
  exists (Dfu.mk [i0; i1]), argv, stdout, found. split; [exact H | exact Hrest].
Defined.

(** X10: in an object that [Dfu.__init__] returns, any two interfaces with
    a non-empty path have the same path. *)
Theorem X10_Dfu_init_one_path
        (dfu_util_list : list string -> result string)
        (path vid pid serial ble_serial : option string) (d : Dfu.t) :
  Dfu.__init__ dfu_util_list path vid pid serial ble_serial = Ok d ->
  forall i j, i ∈ Dfu.interfaces d -> j ∈ Dfu.interfaces d ->
              truthy (DfuInfo.path i) = true ->
              truthy (DfuInfo.path j) = true ->
              DfuInfo.path i = DfuInfo.path j.
Proof.
  intros H i j Hi Hj Hti Htj.
  destruct (Dfu_init_Ok _ _ _ _ _ _ _ H)
    as (argv & stdout & found & _ & _ & _ & Hloop).
  assert (Hinit : paths_agree None []).
  { intros k Hk. by apply elem_of_nil in Hk. }
  destruct (filter_loop_paths serial ble_serial found None []
                              (Dfu.interfaces d) Hinit Hloop) as [pf Hpf].
  destruct (Hpf i Hi Hti) as [_ ->]. destruct (Hpf j Hj Htj) as [_ ->]. done.
Qed.

Lemma X10_witness :
  exists i0 i1,
    Dfu.__init__ (fun _ => Ok keyboard_two_alts) None None None
                 (Some "5335310050464D4B3530343232333033") None
    = Ok (Dfu.mk [i0; i1]) /\
    DfuInfo.path i0 = DfuInfo.path i1.
Proof.
  destruct keyboard_two_alts_init as (i0 & i1 & H & Ha0 & Ha1).
  exists i0, i1. split; [exact H|].
  apply (X10_Dfu_init_one_path _ _ _ _ _ _ _ H); simpl.
  - left.
  - right. left.
  - revert H. vm_compute. intros [= <- <-]. reflexivity.
  - revert H. vm_compute. intros [= <- <-]. reflexivity.
Defined.

(** *** [Dfu.download], [Dfu.upload], [Dfu.reset] *)

Section dfu_runs.

Variable textwrap_wrap : string -> nat -> list string.
Variable tf_name : string.
Variable exit_ok : list string -> bool.

(** X11: on an object without interfaces (which [Dfu.__init__] returns
    when the filters leave nothing), [download], [upload], [reset] and
    [samba_bootloader] raise [IndexError] before any tool is run; with a
    first interface that has no path, the first three raise [TypeError],
    again without a run. *)
Theorem X11_no_interface_no_run (self : Dfu.t) (file : string)
        (file_size : option Z) (alt : Z) (w : world) :
  (Dfu.interfaces self = [] ->
   Dfu.download exit_ok self file alt w = (Raise IndexError, w) /\
   Dfu.upload exit_ok self file file_size alt w = (Raise IndexError, w) /\
   Dfu.reset exit_ok self alt w = (Raise IndexError, w) /\
   Dfu.samba_bootloader textwrap_wrap tf_name exit_ok self w
   = (Raise IndexError, w)) /\
  (forall intf0, Dfu.interfaces self !! 0%nat = Some intf0 ->
                 DfuInfo.path intf0 = None ->
   Dfu.download exit_ok self file alt w = (Raise TypeError, w) /\
   Dfu.upload exit_ok self file file_size alt w = (Raise TypeError, w) /\
   Dfu.reset exit_ok self alt w = (Raise TypeError, w)).
Proof.
  unfold Dfu.download, Dfu.upload, Dfu.reset, Dfu.samba_bootloader,
    dfu.timeit, getitem, mbind, IO_bind, io_bind, io_lift.
  split.
  - intros ->. done.
  - intros intf0 -> ->. done.
Qed.

End dfu_runs.

Lemma X11_witness :
  Dfu.__init__ (fun _ => Ok one_keyboard) None None None
               (Some "0000000000000000") None = Ok (Dfu.mk []) /\
  Dfu.download (fun _ => true) (Dfu.mk []) "firmware.bin" 0 world0
  = (Raise IndexError, world0) /\
  Dfu.upload (fun _ => true) (Dfu.mk []) "flash.bin" None 0 world0
  = (Raise IndexError, world0) /\
  Dfu.reset (fun _ => true) (Dfu.mk []) 0 world0 = (Raise IndexError, world0) /\
  Dfu.samba_bootloader (fun _ _ => []) "/tmp/tmpfile" (fun _ => true)
                       (Dfu.mk []) world0 = (Raise IndexError, world0).
Proof.
  split; [vm_compute; reflexivity|].
  apply (proj1 (X11_no_interface_no_run (fun _ _ => []) "/tmp/tmpfile"
                  (fun _ => true) (Dfu.mk []) "firmware.bin" None 0 world0)).
  reflexivity.
Defined.

Lemma device_arg_decimal (v q : Z) :
  mapM (int 10) (split ":" (str v +:+ ":" +:+ str q)) = Ok [v; q].
Proof.
  pose proof (fun c H => proj1 (proj2 (num_char_facts c H))) as Hcolon.
  change (str v +:+ ":" +:+ str q) with (str v +:+ String ":" (str q)).
  rewrite split_first by (by apply str_differs).
  unfold split. rewrite split_go_differs by (by apply str_differs).
  simpl. by rewrite !int_str.
Qed.

(** X12: with a first interface that has [vid], [pid] and a path,
    [download], [upload] and [reset] each run [dfu-util] exactly once and
    return or raise by its exit status.  The three runs address the device
    by the same arguments; the [--device] argument holds [vid] and [pid] as
    decimal numerals; [upload] passes [--upload-size] only for a non-zero
    size. *)
Theorem X12_dfu_runs_address_first_interface
        (exit_ok : list string -> bool) (self : Dfu.t) (intf0 : DfuInfo.t)
        (v q : Z) (p file : string) (file_size : option Z) (alt : Z)
        (w : world) :
  Dfu.interfaces self !! 0%nat = Some intf0 ->
  DfuInfo.vid intf0 = Some v -> DfuInfo.pid intf0 = Some q ->
  DfuInfo.path intf0 = Some p ->
  exists device,
    mapM (int 10) (split ":" device) = Ok [v; q] /\
    Dfu.download exit_ok self file alt w
    = run_outcome exit_ok (device_prefix alt device p ++ ["--download"; file]) w /\
    Dfu.upload exit_ok self file file_size alt w
    = run_outcome exit_ok (device_prefix alt device p ++ ["--upload"; file]
                           ++ upload_size_args file_size) w /\
    Dfu.reset exit_ok self alt w
    = run_outcome exit_ok (device_prefix alt device p ++ ["--detach"]) w.
Proof.
  intros H0 Hv Hq Hp. exists (str v +:+ ":" +:+ str q).
  split; [apply device_arg_decimal|].
  unfold Dfu.download, Dfu.upload, Dfu.reset, dfu.timeit, getitem, mbind,
    IO_bind, io_bind, io_lift.
  rewrite H0, Hv, Hq, Hp. cbn [Dfu.str_arg Dfu.fmt].
  destruct w as [o n ev].
  unfold run_outcome, device_prefix, upload_size_args.
  rewrite !subprocess_run_at. done.
Qed.

Lemma X12_witness :
  exists device,
    mapM (int 10) (split ":" device) = Ok [0x308f; 0x0021] /\
    Dfu.download (fun _ => true) (Dfu.mk [old_keyboard]) "firmware.bin" 0 world0
    = run_outcome (fun _ => true)
        (device_prefix 0 device "1-2.3" ++ ["--download"; "firmware.bin"]) world0 /\
    Dfu.upload (fun _ => true) (Dfu.mk [old_keyboard]) "firmware.bin" (Some 0) 0 world0
    = run_outcome (fun _ => true)
        (device_prefix 0 device "1-2.3" ++ ["--upload"; "firmware.bin"]
         ++ upload_size_args (Some 0)) world0 /\
    Dfu.reset (fun _ => true) (Dfu.mk [old_keyboard]) 0 world0
    = run_outcome (fun _ => true)
        (device_prefix 0 device "1-2.3" ++ ["--detach"]) world0.
Proof.
  apply (X12_dfu_runs_address_first_interface (fun _ => true)
           (Dfu.mk [old_keyboard]) old_keyboard 0x308f 0x0021 "1-2.3");
    reflexivity.
Defined.

(** *** [struct.pack] and ['{:04x}'.format], as [samba_bootloader] uses them *)



Lemma hex_digit_facts (d : Z) :
  0 <= d < 16 ->
  Ascii.eqb (hex_digit d) underscore = false /\
  digit_val 16 (hex_digit d) = Some d /\
  is_lower_hex (hex_digit d) = true.
Proof.
  intros Hd.
  assert (d = 0 \/ d = 1 \/ d = 2 \/ d = 3 \/ d = 4 \/ d = 5 \/ d = 6 \/ d = 7 \/
          d = 8 \/ d = 9 \/ d = 10 \/ d = 11 \/ d = 12 \/ d = 13 \/ d = 14 \/
          d = 15) as Hc by lia.
  repeat (destruct Hc as [-> | Hc]; [by vm_compute|]). subst. by vm_compute.
Qed.

(** Reading the digits that [hex_go] puts in front of [acc]. *)
Lemma read_hex_go (fuel : nat) :
  forall n acc a b,
    0 <= a -> 0 <= n < 16 ^ Z.of_nat (S fuel) ->
    exists k, 0 <= k /\
      read_digits 16 b a (hex_go (S fuel) n acc)
      = read_digits 16 false (a * 16 ^ k + n) acc.
Proof.
  induction fuel as [|fuel IH]; intros n acc a b Ha Hn.
  - assert (Hd : 0 <= n < 16) by (change (16 ^ Z.of_nat 1) with 16 in Hn; lia).
    destruct (hex_digit_facts _ Hd) as (Hu & Hv & _).
    rewrite <- (Z.mod_small n 16) in Hu, Hv by lia.
    exists 1. split; [lia|].
    assert (hex_go 1 n acc = String (hex_digit (n mod 16)) acc) as ->.
    { cbn [hex_go]. by destruct (n / 16 =? 0). }
    cbn [read_digits]. rewrite Hu, Hv. f_equal.
    rewrite (Z.mod_small n 16) by lia. lia.
  - assert (Hd : 0 <= n mod 16 < 16) by (apply Z.mod_pos_bound; lia).
    destruct (hex_digit_facts _ Hd) as (Hu & Hv & _).
    pose proof (Z.div_mod n 16 ltac:(lia)) as Hdm.
    change (hex_go (S (S fuel)) n acc)
      with (if n / 16 =? 0 then String (hex_digit (n mod 16)) acc
            else hex_go (S fuel) (n / 16) (String (hex_digit (n mod 16)) acc)).
    destruct (n / 16 =? 0) eqn:Hq.
    + apply Z.eqb_eq in Hq. exists 1. split; [lia|].
      cbn [read_digits]. rewrite Hu, Hv. f_equal. lia.
    + assert (Hq0 : 0 <= n / 16) by (apply Z.div_pos; lia).
      assert (Hqb : n / 16 < 16 ^ Z.of_nat (S fuel)).
      { apply Z.div_lt_upper_bound; [lia|].
        rewrite (Nat2Z.inj_succ (S fuel)), Z.pow_succ_r in Hn by lia. lia. }
      destruct (IH (n / 16) (String (hex_digit (n mod 16)) acc) a b Ha
                   (conj Hq0 Hqb)) as (k & Hk & ->).
      exists (k + 1). split; [lia|].
      cbn [read_digits]. rewrite Hu, Hv. f_equal.
      rewrite Z.pow_add_r by lia. lia.
Qed.

Lemma hex_go_chars (fuel : nat) :
  forall n acc,
    0 <= n -> all_chars is_lower_hex acc = true ->
    all_chars is_lower_hex (hex_go fuel n acc) = true.
Proof.
  induction fuel as [|fuel IH]; intros n acc Hn Hacc; [done|].
  cbn [hex_go].
  assert (Hd : 0 <= n mod 16 < 16) by (apply Z.mod_pos_bound; lia).
  destruct (hex_digit_facts _ Hd) as (_ & _ & Hh).
  assert (all_chars is_lower_hex (String (hex_digit (n mod 16)) acc) = true)
    by (simpl; by rewrite Hh).
  destruct (n / 16 =? 0); [done|]. apply IH; [apply Z.div_pos; lia | done].
Qed.

Lemma hex_go_fuel (n : Z) :
  0 <= n -> n < 16 ^ Z.of_nat (S (Z.to_nat (Z.log2 n))).
Proof.
  intros Hn. pose proof (Z.log2_nonneg n) as Hl.
  rewrite Nat2Z.inj_succ, Z2Nat.id by done.
  destruct (Z.eq_dec n 0) as [->|Hne]; [by vm_compute|].
  pose proof (Z.log2_spec n ltac:(lia)) as [_ Hlt].
  eapply Z.lt_le_trans; [exact Hlt|].
  apply Z.pow_le_mono_l. lia.
Qed.

Lemma read_digits_relax (base : Z) (a : Z) (s : string) (n : Z) :
  read_digits base true a s = Some n -> read_digits base false a s = Some n.
Proof.
  destruct s as [|c s]; simpl; [done|]. by destruct (Ascii.eqb c underscore).
Qed.

Lemma zfill_go_read (fuel width : nat) :
  forall s n,
    read_digits 16 true 0 s = Some n ->
    read_digits 16 true 0 (zfill_go fuel width s) = Some n.
Proof.
  induction fuel as [|fuel IH]; intros s n H; [done|].
  cbn [zfill_go]. destruct (String.length s <? width)%nat; [|done].
  apply IH. cbn [read_digits]. by apply read_digits_relax.
Qed.

Lemma zfill_go_chars (fuel width : nat) :
  forall s, all_chars is_lower_hex s = true ->
            all_chars is_lower_hex (zfill_go fuel width s) = true.
Proof.
  induction fuel as [|fuel IH]; intros s H; [done|].
  cbn [zfill_go]. destruct (String.length s <? width)%nat; [|done].
  by apply IH.
Qed.

Lemma zfill_go_length (fuel width : nat) :
  forall s, (width <= fuel + String.length s)%nat ->
            (width <= String.length (zfill_go fuel width s))%nat.
Proof.
  induction fuel as [|fuel IH]; intros s H; [simpl in *; lia|].
  cbn [zfill_go]. destruct (String.length s <? width)%nat eqn:E.
  - apply IH. simpl. lia.
  - apply Nat.ltb_ge in E. lia.
Qed.

Lemma lower_hex_facts (c : ascii) :
  is_lower_hex c = true ->
  is_space c = false /\ Ascii.eqb c "-" = false /\ Ascii.eqb c "+" = false /\
  Ascii.eqb c "x" = false /\ Ascii.eqb c "X" = false.
Proof.
  destruct c as [[] [] [] [] [] [] [] []]; vm_compute; intros H;
    first [discriminate H | repeat split].
Qed.

Lemma drop_base_prefix_hex (s : string) :
  all_chars is_lower_hex s = true -> drop_base_prefix 16 s = None.
Proof.
  destruct s as [|c [|x r]]; [done| |].
  - intros _. unfold drop_base_prefix.
    by destruct c as [[] [] [] [] [] [] [] []].
  - simpl. intros [_ [Hx _]%andb_prop]%andb_prop.
    destruct (lower_hex_facts x Hx) as (_ & _ & _ & Hx1 & Hx2).
    unfold drop_base_prefix. rewrite Hx1, Hx2.
    by destruct c as [[] [] [] [] [] [] [] []].
Qed.

(** X14: for a number that is not negative, ['{:04x}'.format] gives at
    least four characters, and [int(., 16)] reads the number back; so the
    [--vid] and [--pid] that [samba_bootloader] hands to [dfu-suffix] denote
    the [vid] and [pid] that [DfuInfo.set] read. *)
Theorem X14_format_04x_reads_back (n : Z) :
  0 <= n ->
  int 16 (format_04x n) = Ok n /\ (4 <= String.length (format_04x n))%nat.
Proof.
  intros Hn. unfold format_04x.
  assert ((n <? 0) = false) as -> by (apply Z.ltb_ge; lia).
  set (h := hex_go (S (Z.to_nat (Z.log2 n))) n "").
  assert (Hread : read_digits 16 true 0 h = Some n).
  { destruct (read_hex_go (Z.to_nat (Z.log2 n)) n "" 0 true)
      as (k & _ & Hk); [lia|split; [lia|by apply hex_go_fuel]|].
    unfold h. rewrite Hk. reflexivity. }
  assert (Hchars : all_chars is_lower_hex (zfill 4 h) = true)
    by (apply zfill_go_chars, hex_go_chars; done).
  split; [|apply zfill_go_length; lia].
  unfold int, int_opt.
  assert (strip_chars is_space (zfill 4 h) = zfill 4 h) as ->.
  { unfold strip_chars.
    assert (all_chars (fun c => negb (is_space c)) (zfill 4 h) = true).
    { revert Hchars. apply all_chars_impl. intros c Hc.
      by destruct (lower_hex_facts c Hc) as [-> _]. }
    by rewrite lstrip_nonspace, rstrip_nonspace. }
  pose proof (zfill_go_read 4 4 h n Hread) as Hz. fold (zfill 4 h) in Hz.
  pose proof (drop_base_prefix_hex _ Hchars) as Hdrop.
  destruct (zfill 4 h) as [|c r] eqn:E; [done|].
  simpl in Hchars. apply andb_prop in Hchars as [Hc _].
  destruct (lower_hex_facts c Hc) as (_ & -> & -> & _).
  unfold read_unsigned. rewrite Hdrop, Hz. done.
Qed.

Lemma X14_witness :
  int 16 (format_04x 0x308f) = Ok 0x308f /\
  (4 <= String.length (format_04x 0x308f))%nat.
Proof. apply (X14_format_04x_reads_back 0x308f). lia. Defined.

(** *** [Dfu.samba_bootloader]: what is run, and when *)



Section samba_runs.

Variable textwrap_wrap : string -> nat -> list string.
Variable tf_name : string.
Variable exit_ok : list string -> bool.


End samba_runs.


(** *** [Bossa.cmd]: the runs in general *)

Section cmd_runs.

Variable exit_ok : list string -> bool.

(** The state of the world after the options of the main run have been
    appended to the list object [r]. *)
Lemma cmd_main_part (self : Bossa.t) (file : option string)
      (erase : option bool) (write boot_flash : bool)
      (lock_regions : list Z) (verify reset : bool)
      (r : nat) (xs : list string) (o : gmap nat (list string)) (n : nat)
      (ev : list event) :
  let argv := (xs ++ main_options file erase write boot_flash lock_regions
                                  verify reset)%list in
  (_ ← match file with
       | Some f => when (truthy file) (list_append r f)
       | None => mret tt
       end;
   _ ← when (bool_decide (erase = Some true) || truthy file && write)
            (list_append r "--erase");
   _ ← when write (list_append r "--write");
   _ ← (if boot_flash then list_append r "--boot=1"
        else list_append r "--boot=0");
   _ ← when (0 <? length lock_regions)%nat
            (list_append r ("--lock=" +:+ Bossa.regions_arg lock_regions));
   _ ← when (verify && truthy file) (list_append r "--verify");
   _ ← when reset (list_append r "--reset");
   argv ← list_read r;
   subprocess_run exit_ok argv) (World (<[r := xs]> o) n ev)
  = (if exit_ok argv then Ok tt else Raise CalledProcessError,
     World (<[r := argv]> o) n (ev ++ [ev_run argv])%list).
Proof.
  intros argv. unfold mbind, IO_bind, io_bind, mret, IO_ret.
  rewrite file_append_at, !when_append_at.
  assert (Hboot : forall ys o' n' ev',
             (if boot_flash then list_append r "--boot=1"
              else list_append r "--boot=0") (World (<[r := ys]> o') n' ev')
             = (Ok tt, World (<[r := (ys ++ [if boot_flash then "--boot=1"
                                             else "--boot=0"])%list]> o') n' ev')).
  { intros. destruct boot_flash; apply list_append_at. }
  rewrite Hboot, !when_append_at, list_read_at, subprocess_run_at.
  unfold argv, main_options. rewrite <- !app_assoc. reflexivity.
Qed.

Lemma cmd_without_unlock_eq (self : Bossa.t) (file : option string)
      (erase : option bool) (write boot_flash : bool)
      (lock_regions : list Z) (verify reset : bool)
      (o : gmap nat (list string)) (n : nat) (ev : list event) :
  let argv := ([Bossa.bossa_cmd self; "--port"; Bossa.port self]
               ++ main_options file erase write boot_flash lock_regions
                               verify reset)%list in
  Bossa.cmd exit_ok self file erase write boot_flash [] lock_regions
            verify reset (World o n ev)
  = (if exit_ok argv then Ok tt else Raise CalledProcessError,
     World (<[n := argv]> o) (S n) (ev ++ [ev_run argv])%list).
Proof.
  intros argv.
  unfold Bossa.cmd, bossa.timeit, dfu.timeit.
  change (0 <? length (@nil Z))%nat with false. cbv iota.
  unfold mbind at 1 2, IO_bind at 1 2, io_bind at 1 2, mret at 1, IO_ret at 1,
    io_ret at 1, new_list.
  cbn [objs next_ref events].
  rewrite (cmd_main_part self). reflexivity.
Qed.

(** X16: without unlock regions [cmd] runs the tool once, with the port
    options followed by the options of the main run and no unlock option,
    and returns or raises by the exit status. *)
Theorem X16_cmd_without_unlock (self : Bossa.t) (file : option string)
        (erase : option bool) (write boot_flash : bool)
        (lock_regions : list Z) (verify reset : bool) (w : world) :
  let argv := ([Bossa.bossa_cmd self; "--port"; Bossa.port self]
               ++ main_options file erase write boot_flash lock_regions
                               verify reset)%list in
  (Bossa.cmd exit_ok self file erase write boot_flash [] lock_regions
             verify reset w).1
  = (if exit_ok argv then Ok tt else Raise CalledProcessError) /\
  events (Bossa.cmd exit_ok self file erase write boot_flash [] lock_regions
                    verify reset w).2
  = (events w ++ [ev_run argv])%list.
Proof.
  intros argv. destruct w as [o n ev].
  rewrite cmd_without_unlock_eq. done.
Qed.

Lemma cmd_unlock_failure_eq (self : Bossa.t) (file : option string)
      (erase : option bool) (write boot_flash : bool)
      (unlock_regions lock_regions : list Z) (verify reset : bool)
      (o : gmap nat (list string)) (n : nat) (ev : list event) :
  let unlock_argv :=
    [Bossa.bossa_cmd self; "--port"; Bossa.port self;
     "--unlock=" +:+ Bossa.regions_arg unlock_regions] in
  unlock_regions <> [] ->
  exit_ok unlock_argv = false ->
  Bossa.cmd exit_ok self file erase write boot_flash unlock_regions
            lock_regions verify reset (World o n ev)
  = (Raise CalledProcessError,
     World (<[n := unlock_argv]> o) (S n) (ev ++ [ev_run unlock_argv])%list).
Proof.
  intros unlock_argv Hne Hfail.
  unfold Bossa.cmd, bossa.timeit, dfu.timeit.
  unfold mbind, IO_bind, io_bind, mret, IO_ret.
  unfold new_list at 1. cbn [objs next_ref events].
  destruct unlock_regions as [|u0 us]; [done|]. cbn [length Nat.ltb Nat.leb].
  rewrite list_append_at, list_read_at.
  change ([Bossa.bossa_cmd self; "--port"; Bossa.port self]
          ++ ["--unlock=" +:+ Bossa.regions_arg (u0 :: us)])%list
    with unlock_argv.
  rewrite subprocess_run_at, Hfail. reflexivity.
Qed.

(** X17: when the unlock run exits with an error, [cmd] raises
    [CalledProcessError] and the main run is not issued. *)
Theorem X17_cmd_unlock_failure (self : Bossa.t) (file : option string)
        (erase : option bool) (write boot_flash : bool)
        (unlock_regions lock_regions : list Z) (verify reset : bool)
        (w : world) :
  let unlock_argv :=
    [Bossa.bossa_cmd self; "--port"; Bossa.port self;
     "--unlock=" +:+ Bossa.regions_arg unlock_regions] in
  unlock_regions <> [] ->
  exit_ok unlock_argv = false ->
  (Bossa.cmd exit_ok self file erase write boot_flash unlock_regions
             lock_regions verify reset w).1 = Raise CalledProcessError /\
  events (Bossa.cmd exit_ok self file erase write boot_flash unlock_regions
                    lock_regions verify reset w).2
  = (events w ++ [ev_run unlock_argv])%list.
Proof.
  intros unlock_argv Hne Hfail. destruct w as [o n ev].
  rewrite cmd_unlock_failure_eq by done. done.
Qed.

End cmd_runs.

Lemma X17_witness :
  let unlock_argv := ["bossac"; "--port"; "/dev/ttyACM0"; "--unlock=0,1,2"] in
  (Bossa.cmd (fun _ => false) (Bossa.__init__ "/dev/ttyACM0" "bossac")
             (Some "bootloader.bin") None true true [0; 1; 2] [0; 1; 2]
             true true world0).1 = Raise CalledProcessError /\
  events (Bossa.cmd (fun _ => false) (Bossa.__init__ "/dev/ttyACM0" "bossac")
                    (Some "bootloader.bin") None true true [0; 1; 2] [0; 1; 2]
                    true true world0).2
  = [ev_run unlock_argv].
Proof.
  apply (X17_cmd_unlock_failure (fun _ => false)
           (Bossa.__init__ "/dev/ttyACM0" "bossac") (Some "bootloader.bin")
           None true true [0; 1; 2] [0; 1; 2] true true world0).
  - discriminate.
  - reflexivity.
Defined.

Lemma cmd_without_unlock_events (exit_ok : list string -> bool)
      (self : Bossa.t) (file : option string) (erase : option bool)
      (write boot_flash : bool) (lock_regions : list Z) (verify reset : bool)
      (w : world) :
  events (Bossa.cmd exit_ok self file erase write boot_flash [] lock_regions
                    verify reset w).2
  = (events w ++ [ev_run ([Bossa.bossa_cmd self; "--port"; Bossa.port self]
                          ++ main_options file erase write boot_flash
                                          lock_regions verify reset)])%list.
Proof. destruct w as [o n ev]. by rewrite cmd_without_unlock_eq. Qed.

Lemma lock_option_not_verify (regions : list Z) :
  "--lock=" +:+ Bossa.regions_arg regions <> "--verify".
Proof. rewrite !append_cons. discriminate. Qed.

(** X18: in every call of [cmd] that reaches the main run, the options of
    that run hold [--erase] whenever a file is written, also with
    [erase=False], and whenever [erase] is [True]; and they hold no
    [--verify] when no file is given, even with [verify=True]. *)
Theorem X18_cmd_main_options (exit_ok : list string -> bool) (self : Bossa.t)
        (file : option string) (erase : option bool) (write boot_flash : bool)
        (unlock_regions lock_regions : list Z) (verify reset : bool)
        (w : world) :
  let unlock_argv :=
    [Bossa.bossa_cmd self; "--port"; Bossa.port self;
     "--unlock=" +:+ Bossa.regions_arg unlock_regions] in
  unlock_regions = [] \/ exit_ok unlock_argv = true ->
  exists front options,
    last (events (Bossa.cmd exit_ok self file erase write boot_flash
                            unlock_regions lock_regions verify reset w).2)
    = Some (ev_run (front ++ options)) /\
    (front = [Bossa.bossa_cmd self; "--port"; Bossa.port self]
     \/ front = unlock_argv) /\
    (write = true -> truthy file = true -> "--erase" ∈ options) /\
    (erase = Some true -> "--erase" ∈ options) /\
    (truthy file = false -> "--verify" ∉ options).
Proof.
  intros unlock_argv Hreach.
  set (options := main_options file erase write boot_flash lock_regions
                               verify reset).
  assert (Hopts :
    (write = true -> truthy file = true -> "--erase" ∈ options) /\
    (erase = Some true -> "--erase" ∈ options) /\
    (truthy file = false -> "--verify" ∉ options)).
  { unfold options, main_options. split; [|split].
    - intros -> ->. rewrite orb_true_r.
      apply elem_of_app. right. left.
    - intros ->. rewrite bool_decide_eq_true_2 by done.
      apply elem_of_app. right. left.
    - intros Hfile. rewrite Hfile, andb_false_r.
      destruct file as [f|]; destruct (_ || _), write, boot_flash,
        (0 <? length lock_regions)%nat, reset; simpl;
        rewrite ?elem_of_cons, ?elem_of_nil;
        pose proof (lock_option_not_verify lock_regions);
        intuition congruence. }
  destruct unlock_regions as [|u0 us].
  - exists [Bossa.bossa_cmd self; "--port"; Bossa.port self], options.
    split; [|by auto].
    rewrite cmd_without_unlock_events.
    by rewrite last_snoc.
  - destruct Hreach as [|Hok]; [done|].
    exists unlock_argv, options. split; [|by auto].
    unfold unlock_argv. rewrite cmd_unlock_runs by done.
    by rewrite last_app.
Qed.

Lemma X18_witness :
  exists front options,
    last (events (Bossa.cmd (fun _ => true)
                    (Bossa.__init__ "/dev/ttyACM0" "bossac")
                    (Some "bootloader.bin") (Some false) true true []
                    [0; 1; 2] false true world0).2)
    = Some (ev_run (front ++ options)) /\
    "--erase" ∈ options.
Proof.
  destruct (X18_cmd_main_options (fun _ => true)
              (Bossa.__init__ "/dev/ttyACM0" "bossac") (Some "bootloader.bin")
              (Some false) true true [] [0; 1; 2] false true world0)
    as (front & options & Hlast & _ & Herase & _).
  - left. reflexivity.
  - exists front, options. split; [exact Hlast|].
    apply Herase; reflexivity.
Defined.

(** *** The region lists of [Bossa.cmd] *)

Lemma num_char_comma (c : ascii) :
  is_num_char c = true -> differs "," c = true.
Proof.
  destruct c as [[] [] [] [] [] [] [] []]; vm_compute; intros H;
    first [discriminate H | reflexivity].
Qed.

(** X19: the text that [cmd] puts after [--unlock=] or [--lock=] for a
    non-empty list of regions splits at the commas into the decimal
    numerals of the regions, in their order. *)
Theorem X19_regions_arg_reads_back (regions : list Z) :
  regions <> [] ->
  mapM (int 10) (split "," (Bossa.regions_arg regions)) = Ok regions.
Proof.
  unfold Bossa.regions_arg.
  induction regions as [|x regions IH]; [done|]. intros _.
  destruct regions as [|y regions].
  - cbn [fmap list_fmap join]. unfold split.
    rewrite split_go_differs by (apply str_differs, num_char_comma).
    simpl. by rewrite int_str.
  - change (join "," (str <$> x :: y :: regions))
      with (str x +:+ String "," (join "," (str <$> y :: regions))).
    rewrite split_first by (apply str_differs, num_char_comma).
    cbn [mapM]. rewrite int_str, IH by done. reflexivity.
Qed.

Lemma X19_witness :
  mapM (int 10) (split "," (Bossa.regions_arg [0; 1; 2])) = Ok [0; 1; 2].
Proof. apply X19_regions_arg_reads_back. discriminate. Defined.

(** *** [BossaInfo]: attributes, warnings, parsing in pieces *)

Lemma owner_attribute (k label : string) :
  owner k = Some label -> k ∈ attributes.
Proof.
  unfold owner, attributes. cbn [List.find fst snd].
  repeat match goal with
         | |- context [String.eqb ?a k] =>
             destruct (String.eqb_spec a k) as [<-|_];
             [intros _; repeat (first [left | right])|]
         end.
  discriminate.
Qed.

Lemma fresh_attributes (k : string) :
  is_Some (BossaInfo.fresh !! k) <-> k ∈ attributes.
Proof.
  unfold BossaInfo.fresh, attributes.
  rewrite !lookup_insert_is_Some', !elem_of_cons, elem_of_nil.
  pose proof (lookup_empty_is_Some (M := gmap string) (A := value) k).
  intuition.
Qed.

Lemma set_lines_owner (lines : list string) :
  forall (d : BossaInfo.t) (w : list string) (k : string),
    BossaInfo.set_lines ∅ lines = Ok (d, w) -> is_Some (d !! k) ->
    exists label, owner k = Some label.
Proof.
  induction lines as [|x lines IH]; intros d w k H Hk.
  - injection H as <- <-. by apply lookup_empty_is_Some in Hk.
  - cbn [BossaInfo.set_lines] in H.
    bind_inv H as p1 Hx. destruct p1 as [dx wx].
    rewrite (set_lines_delta lines dx) in H.
    bind_inv H as p2 Hl. destruct p2 as [d2 w2].
    bind_inv Hl as p3 Hl0. destruct p3 as [d0 w0].
    injection Hl as <- <-. injection H as <- <-.
    apply lookup_union_is_Some in Hk as [Hk|Hk].
    + by eapply IH.
    + destruct (set_line_owner x dx wx k Hx Hk) as (label & Ho & _). eauto.
Qed.

(** X20: a [BossaInfo] object that is constructed has exactly the thirteen
    attributes of the class, whatever the tool printed: parsing adds none
    and removes none. *)
Theorem X20_BossaInfo_attributes (bossac_output : string) (r : BossaInfo.t)
        (w : list string) (k : string) :
  BossaInfo.__init__ bossac_output = Ok (r, w) ->
  is_Some (r !! k) <-> k ∈ attributes.
Proof.
  unfold BossaInfo.__init__, BossaInfo.set. intros H.
  rewrite set_lines_delta in H. bind_inv H as p Hd. destruct p as [d w'].
  injection H as <- <-.
  rewrite lookup_union_is_Some, fresh_attributes. split; [|by auto].
  intros [Hk|Hk]; [|done].
  destruct (set_lines_owner _ _ _ _ Hd Hk) as [label Ho].
  by eapply owner_attribute.
Qed.

Lemma X20_witness :
  let r := <["pages" := VInt 2048]> BossaInfo.fresh in
  BossaInfo.__init__ "Pages: 2048" = Ok (r, []) /\
  (is_Some (r !! "pages") <-> "pages" ∈ attributes) /\
  (is_Some (r !! "Pages") <-> "Pages" ∈ attributes).
Proof.
  cbv zeta.
  assert (E : BossaInfo.__init__ "Pages: 2048"
              = Ok (<["pages" := VInt 2048]> BossaInfo.fresh, []))
    by (vm_compute; reflexivity).
  split; [exact E|].
  split; apply (X20_BossaInfo_attributes _ _ _ _ E).
Defined.

Lemma set_line_warning (self self' : BossaInfo.t) (line : string)
      (w : list string) :
  BossaInfo.set_line self line = Ok (self', w) ->
  w = if warned line then [line] else [].
Proof.
  unfold BossaInfo.set_line, warned, unrecognized, labels.
  cbn [forallb].
  repeat match goal with
         | |- context [if contains ?l line then _ else _] =>
             destruct (contains l line); cbn [negb andb]
         end;
    intros H;
    repeat match type of H with
           | (_ ≫= _) = Ok _ =>
               let x := fresh "x" in
               let Hx := fresh "Hx" in
               bind_inv H as x Hx; cbv beta in H
           | context [splitn ?a ?b ?c] => two_fields (splitn a b c)
           | context [if contains ?a ?b then _ else _] => destruct (contains a b)
           | context [if String.eqb ?a ?b then _ else _] =>
               destruct (String.eqb a b)
           end;
    try discriminate H; by injection H as <- <-.
Qed.

(** X21: when [BossaInfo.set] succeeds, the warnings it logged are exactly
    the non-empty lines in which no label occurs, once each and in the
    order of the text. *)
Theorem X21_BossaInfo_warnings (self r : BossaInfo.t) (bossac_output : string)
        (w : list string) :
  BossaInfo.set self bossac_output = Ok (r, w) ->
  w = List.filter warned (split newline bossac_output).
Proof.
  unfold BossaInfo.set. generalize (split newline bossac_output).
  intros lines. revert self r w.
  induction lines as [|x lines IH]; intros self r w H.
  - by injection H as <- <-.
  - cbn [BossaInfo.set_lines] in H.
    bind_inv H as p1 Hx. destruct p1 as [s1 w1].
    bind_inv H as p2 Hl. destruct p2 as [s2 w2]. injection H as <- <-.
    apply set_line_warning in Hx as ->. apply IH in Hl as ->.
    cbn [List.filter]. by destruct (warned x).
Qed.

Lemma X21_witness :
  let text := join newline ["Device: ATSAM4S4"; "Flash Banks: 2"; "";
                            "Pages: 2048"] in
  let r := <["pages" := VInt 2048]>
             (<["device" := VStr "ATSAM4S4"]> BossaInfo.fresh) in
  BossaInfo.set BossaInfo.fresh text = Ok (r, ["Flash Banks: 2"]) /\
  ["Flash Banks: 2"] = List.filter warned (split newline text).
Proof.
  cbv zeta.
  assert (E : BossaInfo.set BossaInfo.fresh
                (join newline ["Device: ATSAM4S4"; "Flash Banks: 2"; "";
                               "Pages: 2048"])
              = Ok (<["pages" := VInt 2048]>
                      (<["device" := VStr "ATSAM4S4"]> BossaInfo.fresh),
                    ["Flash Banks: 2"]))
    by (vm_compute; reflexivity).
  split; [exact E|].
  exact (X21_BossaInfo_warnings _ _ _ _ E).
Defined.

Lemma split_app_sep (c : ascii) (a b : string) :
  split (String c "") (a +:+ String c b)
  = (split (String c "") a ++ split (String c "") b)%list.
Proof.
  induction a as [|x a IH].
  - change ("" +:+ String c b) with (String c b). by rewrite split_sep_cons.
  - rewrite append_cons. destruct (Ascii.eqb c x) eqn:E.
    + apply Ascii.eqb_eq in E as <-. by rewrite !split_sep_cons, IH.
    + unfold split in *. cbn [split_go may_split startswith andb].
      rewrite E. cbn [andb]. rewrite IH.
      pose proof (split_go_nonempty (String c "") None 0 a).
      by destruct (split_go (String c "") None 0 a).
Qed.

Lemma set_lines_app (l1 l2 : list string) (self : BossaInfo.t) :
  BossaInfo.set_lines self (l1 ++ l2)
  = '(r1, w1) ← BossaInfo.set_lines self l1;
    '(r2, w2) ← BossaInfo.set_lines r1 l2;
    mret (r2, (w1 ++ w2)%list).
Proof.
  revert self. induction l1 as [|x l1 IH]; intros self.
  - cbn [app BossaInfo.set_lines]. simpl.
    by destruct (BossaInfo.set_lines self l2) as [[? ?]|?].
  - cbn [app BossaInfo.set_lines].
    destruct (BossaInfo.set_line self x) as [[s1 wx]|e]; simpl; [|done].
    rewrite IH.
    destruct (BossaInfo.set_lines s1 l1) as [[r1 w1]|e]; simpl; [|done].
    destruct (BossaInfo.set_lines r1 l2) as [[r2 w2]|e]; simpl; [|done].
    by rewrite app_assoc.
Qed.

(** X22: parsing a text in two pieces cut at a newline, the second into
    the object that the first produced, gives what parsing the whole text
    gives, with the warnings of the two pieces one after the other. *)
Theorem X22_BossaInfo_set_in_pieces (self : BossaInfo.t) (text1 text2 : string) :
  BossaInfo.set self (text1 +:+ newline +:+ text2)
  = '(r1, w1) ← BossaInfo.set self text1;
    '(r2, w2) ← BossaInfo.set r1 text2;
    mret (r2, (w1 ++ w2)%list).
Proof.
  unfold BossaInfo.set.
  change (text1 +:+ newline +:+ text2) with (text1 +:+ String nl text2).
  unfold newline. rewrite split_app_sep. apply set_lines_app.
Qed.

(** *** [Bossa.from_udev] *)

Lemma ascii_compare_N (a b : ascii) :
  Ascii.compare a b = N.compare (N_of_ascii a) (N_of_ascii b).
Proof. reflexivity. Qed.

Lemma string_compare_trans (a : string) :
  forall b c,
    String.compare a b <> Gt -> String.compare b c <> Gt ->
    String.compare a c <> Gt.
Proof.
  induction a as [|x a IH]; intros [|y b] [|z c]; cbn [String.compare];
    try done.
  rewrite !ascii_compare_N.
  destruct (N.compare_spec (N_of_ascii x) (N_of_ascii y)) as [Exy|Lxy|Gxy];
    destruct (N.compare_spec (N_of_ascii y) (N_of_ascii z)) as [Eyz|Lyz|Gyz];
    destruct (N.compare_spec (N_of_ascii x) (N_of_ascii z)) as [Exz|Lxz|Gxz];
    try done; try lia.
  apply IH.
Qed.

Lemma leb_trans (a b c : string) :
  String.leb a b = true -> String.leb b c = true -> String.leb a c = true.
Proof.
  unfold String.leb. intros Hab Hbc.
  pose proof (string_compare_trans a b c) as H.
  destruct (String.compare a b), (String.compare b c), (String.compare a c);
    try done; by destruct H.
Qed.

Lemma leb_refl (a : string) : String.leb a a = true.
Proof. by destruct (String.leb_total a a). Qed.

Lemma insert_by_key_perm (x : string * string) (l : list (string * string)) :
  Bossa.insert_by_key x l ≡ₚ x :: l.
Proof.
  induction l as [|y l IH]; cbn [Bossa.insert_by_key]; [done|].
  destruct (String.leb x.1 y.1); [done|].
  rewrite IH. apply perm_swap.
Qed.

Lemma sorted_by_key_perm (l : list (string * string)) :
  Bossa.sorted_by_key l ≡ₚ l.
Proof.
  induction l as [|x l IH]; [done|].
  change (Bossa.sorted_by_key (x :: l))
    with (Bossa.insert_by_key x (Bossa.sorted_by_key l)).
  by rewrite insert_by_key_perm, IH.
Qed.

(** The sorted list starts with an entry whose key is not above any key
    of the list. *)
Lemma sorted_by_key_head (l : list (string * string)) (h : string * string)
      (t : list (string * string)) :
  Bossa.sorted_by_key l = h :: t ->
  forall y, y ∈ l -> String.leb h.1 y.1 = true.
Proof.
  revert h t. induction l as [|x l IH]; intros h t E y Hy.
  - by apply elem_of_nil in Hy.
  - change (Bossa.sorted_by_key (x :: l))
      with (Bossa.insert_by_key x (Bossa.sorted_by_key l)) in E.
    destruct (Bossa.sorted_by_key l) as [|h' t'] eqn:E'.
    + pose proof (sorted_by_key_perm l) as Hp. rewrite E' in Hp.
      apply Permutation_nil in Hp. subst l.
      injection E as <- <-.
      apply list_elem_of_singleton in Hy as ->. apply leb_refl.
    + cbn [Bossa.insert_by_key] in E.
      destruct (String.leb x.1 h'.1) eqn:Hx; injection E as <- <-.
      * apply elem_of_cons in Hy as [->|Hy]; [apply leb_refl|].
        eapply leb_trans; [exact Hx|]. by eapply IH.
      * apply elem_of_cons in Hy as [->|Hy]; [|by eapply IH].
        destruct (String.leb_total x.1 h'.1) as [H|H]; [congruence|done].
Qed.

(** X23: [Bossa.from_udev] asks udev for the devices with vendor [03eb]
    and product [6124] (on the given port, when a non-empty [path] is
    given).  When no device node lies below a [cdc_acm] child of these it
    raises [FileNotFoundError]; otherwise it returns an object for one of
    these nodes, one that no other of them precedes in the order of
    strings, with the given [bossa_cmd] and no info yet. *)
Theorem X23_Bossa_from_udev_first_node
        (udev_matches : string -> string -> option string ->
                        result (list Bossa.udev_device))
        (bossa_cmd : string) (path : option string)
        (matches : list Bossa.udev_device) :
  udev_matches "03eb" "6124" (if truthy path then path else None)
  = Ok matches ->
  match Bossa.from_udev udev_matches bossa_cmd path with
  | Ok b =>
      Bossa.port b ∈ candidates matches /\
      (forall node, node ∈ candidates matches ->
                    String.leb (Bossa.port b) node = true) /\
      Bossa.bossa_cmd b = bossa_cmd /\ Bossa.bossa_info b = None
  | Raise e => e = FileNotFoundError /\ candidates matches = []
  end.
Proof.
  intros H. unfold Bossa.from_udev.
  cbn [fst snd].
  change (format_04x 1003) with "03eb". change (format_04x 24868) with "6124".
  rewrite H. simpl. rewrite app_nil_r. unfold candidates.
  remember (matches ≫= Bossa.device_entries) as found eqn:E.
  destruct found as [|x l]; [done|].
  cbn [length Nat.eqb]. remember (x :: l) as entries eqn:El.
  destruct (Bossa.sorted_by_key entries) as [|h t] eqn:Es.
  - pose proof (sorted_by_key_perm entries) as Hp. rewrite Es, El in Hp.
    by apply Permutation_nil_cons in Hp.
  - simpl. repeat split.
    + apply list_elem_of_fmap. exists h. split; [done|].
      rewrite <- (sorted_by_key_perm entries), Es. by left.
    + intros node (y & -> & Hy)%list_elem_of_fmap.
      by eapply sorted_by_key_head.
Qed.
Lemma X23_witness :
  let usb := Bossa.mk_device "1-2"
               [ Bossa.mk_child (Some "usbhid") ["/dev/hidraw0"];
                 Bossa.mk_child (Some "cdc_acm")
                                ["/dev/ttyACM1"; "/dev/ttyACM0"] ] in
  let udev := fun (_ _ : string) (_ : option string) => Ok [usb] in
  Bossa.from_udev udev "bossac" None
  = Ok (Bossa.__init__ "/dev/ttyACM0" "bossac") /\
  match Bossa.from_udev udev "bossac" None with
  | Ok b =>
      Bossa.port b ∈ candidates [usb] /\
      (forall node, node ∈ candidates [usb] ->
                    String.leb (Bossa.port b) node = true) /\
      Bossa.bossa_cmd b = "bossac" /\ Bossa.bossa_info b = None
  | Raise e => e = FileNotFoundError /\ candidates [usb] = []
  end.
Proof.
  cbv zeta. split; [vm_compute; reflexivity|].
  apply (X23_Bossa_from_udev_first_node
           (fun _ _ _ =>
              Ok [Bossa.mk_device "1-2"
                    [ Bossa.mk_child (Some "usbhid") ["/dev/hidraw0"];
                      Bossa.mk_child (Some "cdc_acm")
                                     ["/dev/ttyACM1"; "/dev/ttyACM0"] ]])
           "bossac" None).
  reflexivity.
Defined.

(** *** [retrieve_firmware_revision] *)

Lemma retrieve_key_line (line : string) (rest : list string) :
  key_line line = true ->
  retrieve_firmware_revision (line :: rest) = revision_of line.
Proof.
  unfold key_line, has_key, revision_of. cbn [retrieve_firmware_revision].
  destruct (contains "CLI_RevisionNumber" (rstrip_chars is_space line));
    [done|].
  destruct (contains "BCD_VERSION" (rstrip_chars is_space line)); [done|].
  destruct (contains "GIT_COMMIT_NUMBER" (rstrip_chars is_space line));
    done.
Qed.

Lemma retrieve_other_line (line : string) (rest : list string) :
  key_line line = false ->
  retrieve_firmware_revision (line :: rest) = retrieve_firmware_revision rest.
Proof.
  unfold key_line, has_key. cbn [retrieve_firmware_revision].
  destruct (contains "CLI_RevisionNumber" (rstrip_chars is_space line));
    [done|].
  destruct (contains "BCD_VERSION" (rstrip_chars is_space line)); [done|].
  destruct (contains "GIT_COMMIT_NUMBER" (rstrip_chars is_space line));
    done.
Qed.

(** X24: [retrieve_firmware_revision] is decided by the first line in
    which one of the three names occurs: the lines before it and the lines
    after it do not matter, and when its last word is no number the
    exception is not made up for by a later line.  Without such a line the
    function returns [None]. *)
Theorem X24_first_key_line_decides (before after : list string)
        (line : string) :
  forallb (fun l => negb (key_line l)) before = true ->
  (key_line line = true ->
   retrieve_firmware_revision (before ++ line :: after) = revision_of line) /\
  retrieve_firmware_revision before = Ok None.
Proof.
  induction before as [|x before IH]; cbn [forallb app].
  - intros _. split; [apply retrieve_key_line|done].
  - intros [Hx Hb]%andb_true_iff. apply negb_true_iff in Hx.
    rewrite !(retrieve_other_line x) by done. by apply IH.
Qed.

Lemma X24_witness :
  let before := ["// generated" +:+ newline; newline] in
  let line := "#define CLI_RevisionNumber 1234" +:+ newline in
  let after := ["#define BCD_VERSION 0x04e3" +:+ newline] in
  retrieve_firmware_revision (before ++ line :: after) = Ok (Some 1234%Z) /\
  retrieve_firmware_revision before = Ok None.
Proof.
  cbv zeta.
  destruct (X24_first_key_line_decides
              ["// generated" +:+ newline; newline]
              ["#define BCD_VERSION 0x04e3" +:+ newline]
              ("#define CLI_RevisionNumber 1234" +:+ newline))
    as [H1 H2]; [reflexivity|].
  split; [|exact H2]. rewrite H1 by reflexivity. reflexivity.
Defined.

Lemma rstrip_app_space (f : ascii -> bool) (s t : string) :
  all_chars f t = true -> rstrip_chars f (s +:+ t) = rstrip_chars f s.
Proof.
  intros Ht. induction s as [|c s IH].
  - change ("" +:+ t) with t. induction t as [|c t IHt]; [done|].
    cbn [all_chars] in Ht. apply andb_true_iff in Ht as [Hc Ht].
    cbn [rstrip_chars]. rewrite (IHt Ht). cbn [rstrip_chars]. by rewrite Hc.
  - rewrite append_cons. cbn [rstrip_chars]. by rewrite IH.
Qed.

Lemma contains_app_l (p a b : string) :
  contains p a = true -> contains p (a +:+ b) = true.
Proof.
  assert (Hs : forall p a, startswith p a = true ->
                           startswith p (a +:+ b) = true).
  { clear. intros p. induction p as [|x p IH]; intros a; [done|].
    destruct a as [|y a]; [done|]. rewrite append_cons.
    cbn [startswith]. intros [-> H]%andb_true_iff. by rewrite (IH a H). }
  induction a as [|y a IH].
  - cbn [contains]. rewrite orb_false_r. intros H.
    apply contains_startswith. by apply (Hs p "").
  - rewrite append_cons. cbn [contains].
    intros [H|H]%orb_true_iff.
    + pose proof (Hs p (String y a) H) as H'. rewrite append_cons in H'.
      by rewrite H'.
    + rewrite (IH H). apply orb_true_r.
Qed.

Lemma num_char_not_space (c : ascii) :
  is_num_char c = true -> differs " " c = true.
Proof. intros H. destruct (num_char_facts c H) as (Hs & _). revert Hs.
  unfold differs. destruct (Ascii.eqb_spec " " c) as [<-|]; [|done].
  by vm_compute.
Qed.

Lemma str_nonempty (n : Z) : str n <> "".
Proof.
  intros E. pose proof (int_str n) as H. rewrite E in H.
  vm_compute in H. discriminate H.
Qed.

Lemma rstrip_app_keep (f : ascii -> bool) (s t : string) :
  rstrip_chars f t <> "" -> rstrip_chars f (s +:+ t) = s +:+ rstrip_chars f t.
Proof.
  intros Ht. induction s as [|c s IH]; [done|].
  rewrite !append_cons. cbn [rstrip_chars]. rewrite IH.
  destruct (s +:+ rstrip_chars f t) as [|x r] eqn:E; [|done].
  destruct s; [|by rewrite append_cons in E].
  by destruct Ht.
Qed.

Lemma has_key_app (a b : string) :
  has_key a = true -> has_key (a +:+ b) = true.
Proof.
  unfold has_key. intros [[H|H]%orb_true_iff|H]%orb_true_iff;
    rewrite (contains_app_l _ a b H); by rewrite ?orb_true_r.
Qed.

Lemma rstrip_str_newline (n : Z) :
  rstrip_chars is_space (str n +:+ newline) = str n.
Proof.
  rewrite rstrip_app_space by reflexivity.
  apply rstrip_nonspace. eapply all_chars_impl; [|apply str_chars].
  intros c Hc. by destruct (num_char_facts c Hc) as [-> _].
Qed.

(** X25: a line that ends with a space, the decimal numeral of [n] and a
    newline, and that holds one of the three names before them, makes
    [retrieve_firmware_revision] return [n], for every integer [n] and
    whatever lines follow. *)
Theorem X25_revision_read_back (name_part : string) (n : Z)
        (rest : list string) :
  has_key name_part = true ->
  retrieve_firmware_revision
    ((name_part +:+ " " +:+ str n +:+ newline) :: rest)
  = Ok (Some n).
Proof.
  intros Hkey.
  assert (Hstrip : rstrip_chars is_space
                     (name_part +:+ " " +:+ str n +:+ newline)
                   = name_part +:+ String " " (str n)).
  { rewrite <- (append_assoc name_part " " (str n +:+ newline)).
    rewrite rstrip_app_keep; rewrite rstrip_str_newline.
    - apply append_assoc.
    - apply str_nonempty. }
  rewrite retrieve_key_line.
  - unfold revision_of, last_int. rewrite Hstrip, split_app_sep.
    assert (split " " (str n) = [str n]) as ->.
    { apply split_go_differs, str_differs, num_char_not_space. }
    by rewrite last_snoc, int_str.
  - unfold key_line. rewrite Hstrip. by apply has_key_app.
Qed.

Lemma X25_witness :
  has_key "#define GIT_COMMIT_NUMBER" = true /\
  retrieve_firmware_revision
    [ "#pragma once" +:+ newline;
      "#define GIT_COMMIT_NUMBER" +:+ " " +:+ str 1233 +:+ newline ]
  = Ok (Some 1233%Z).
Proof.
  split; [reflexivity|].
  rewrite retrieve_other_line by reflexivity.
  apply (X25_revision_read_back "#define GIT_COMMIT_NUMBER" 1233 []).
  reflexivity.
Defined.
